(** * DLHub SDK: a shallow embedding of the service client, the polling
  future and the servable description models.

  The Python sources are [dlhub_sdk/client.py], [dlhub_sdk/utils/futures.py]
  and the unit tests of [dlhub_sdk/models/servables].  Remote collaborators
  (Globus Search, the DLHub REST service, the file system) are explicit:
  their answers are section variables and every call to them is recorded in
  the [world] that the client's monad threads through. *)

From stdpp Require Import gmap strings list sorting.
From Stdlib Require Import ZArith QArith_base.

Close Scope Q_scope.

Set Warnings "-register-all".

(** ** Python values and exceptions *)

Module Py.

(** JSON-like Python data: what [json.dumps] accepts and [r.json()] returns.
    A [dict] is a finite map, so equality ignores insertion order, as [==]
    on Python dictionaries does. *)
Inductive json :=
| JNone
| JBool (b : bool)
| JInt (z : Z)
| JStr (s : string)
| JList (l : list json)
| JDict (d : gmap string json).

(** Reply of an HTTP call as the client reads it: [http_status] / [status_code],
    the decoded body ([data], [json()]) and the raw body [text]. *)
Record response := Response { http_status : Z; data : json; text : string }.

(** What the client passes to a bare [Exception]: the reply object in [run],
    the reply text in [publish_servable]. *)
Inductive exn_arg :=
| ArgResponse (r : response)
| ArgText (s : string).

(** Exception classes raised by the modelled code, with the argument they are
    constructed with. *)
Inductive exn :=
| ValueError (msg : string)
| TypeError (msg : string)
| KeyError (key : string)
| IndexError (msg : string)
| AttributeError (msg : string)
| RuntimeError (msg : string)
| NotImplementedError (msg : string)
| FileNotFoundError (path : string)
| GlobusAPIError (msg : string)
| InvalidStateError
| Exception (arg : exn_arg).

Inductive result (A : Type) :=
| Ok (a : A)
| Raise (e : exn).
Arguments Ok {A} a.
Arguments Raise {A} e.

#[global] Instance result_ret : MRet result := λ A a, Ok a.

#[global] Instance result_bind : MBind result := λ A B f r,
  match r with
  | Ok a => f a
  | Raise e => Raise e
  end.

Definition is_ok {A} (r : result A) : bool :=
  match r with Ok _ => true | Raise _ => false end.

(** Python truthiness of the optional arguments the client tests with [not]. *)
Definition truthy_str (s : option string) : bool :=
  match s with
  | None => false
  | Some s => negb (String.eqb s "")
  end.

Definition truthy_int (z : option Z) : bool :=
  match z with
  | None => false
  | Some z => negb (z =? 0)%Z
  end.

(** The name Python prints for the type of a value in its error messages. *)
Definition type_name (j : json) : string :=
  match j with
  | JNone => "NoneType"
  | JBool _ => "bool"
  | JInt _ => "int"
  | JStr _ => "str"
  | JList _ => "list"
  | JDict _ => "dict"
  end.

(** [j[k]] for a string key [k]: only a dictionary holding the key answers. *)
Definition getitem (j : json) (k : string) : result json :=
  match j with
  | JDict d =>
      match d !! k with
      | Some v => Ok v
      | None => Raise (KeyError k)
      end
  | JStr _ => Raise (TypeError "string indices must be integers")
  | JList _ => Raise (TypeError "list indices must be integers or slices, not str")
  | _ => Raise (TypeError ("'" +:+ type_name j +:+ "' object is not subscriptable"))
  end.

(** [j[k] = v] for a string key [k]. *)
Definition setitem (j : json) (k : string) (v : json) : result json :=
  match j with
  | JDict d => Ok (JDict (<[k := v]> d))
  | JList _ => Raise (TypeError "list indices must be integers or slices, not str")
  | _ => Raise (TypeError ("'" +:+ type_name j +:+ "' object does not support item assignment"))
  end.

(** [str.format] applied to two strings, for ['{}/{}'.format(a, b)]. *)
Definition format_pair (a b : string) : string := a +:+ "/" +:+ b.

End Py.
Export Py.

(** ** Search documents and queries *)

Module Docs.

(** The [dlhub] block of a search result, with the keys the client reads.
    The publication date is the integer version of the servable, as the
    docstring of [search_by_servable] has it. *)
Record dlhub_block := DlhubBlock {
  owner : string;
  name : string;
  shorthand_name : string;
  publication_date : Z
}.

(** A search-result document: [r['dlhub']] is its [dlhub] block. *)
Record doc := Doc { dlhub : dlhub_block }.

(** The query information returned next to the results when [info=True]. *)
Record query_info := QueryInfo { total_query_matches : Z }.

(** The calls chained on a fresh [DLHubSearchHelper], in source order. *)
Inductive qcall :=
| match_field (field value : string)
| match_servable (servable_name owner : option string) (publication_date : option Z)
| match_owner (owner : string)
| add_sort (field : string) (ascending : bool).

Definition query := list qcall.

Global Instance dlhub_block_eq_dec : EqDecision dlhub_block.
Proof. solve_decision. Defined.
Global Instance doc_eq_dec : EqDecision doc.
Proof. solve_decision. Defined.

(** Objects the latest-version filter handles: the integer default of
    [dict.get], a result document, the list of results, or the
    query-information dictionary. *)
Inductive pyobj :=
| PInt (z : Z)
| PDoc (d : doc)
| PList (l : list pyobj)
| PInfo (i : query_info).

(** What [search] hands back: a plain list, or the tuple [(results, info)]. *)
Inductive search_output :=
| ResultList (l : list pyobj)
| ResultTuple (l : list pyobj) (i : query_info).

(** Iterating a list yields its items; iterating the tuple yields its two
    components. *)
Definition py_iter (r : search_output) : list pyobj :=
  match r with
  | ResultList l => l
  | ResultTuple l i => [PList l; PInfo i]
  end.

Definition list_index_msg : string := "list indices must be integers or slices, not str".
Definition tuple_assign_msg : string := "'tuple' object does not support item assignment".
Definition list_assign_msg : string := "list assignment index out of range".
Definition int_subscript_msg : string := "'int' object is not subscriptable".
Definition dict_int_lt_msg : string := "'<' not supported between instances of 'dict' and 'int'".
Definition list_int_lt_msg : string := "'<' not supported between instances of 'list' and 'int'".

(** [res["dlhub"]]: a document has the key, the information dictionary does
    not, and a list cannot be indexed by a string. *)
Definition getitem_dlhub (res : pyobj) : result dlhub_block :=
  match res with
  | PInt _ => Raise (TypeError int_subscript_msg)
  | PDoc d => Ok (dlhub d)
  | PList _ => Raise (TypeError list_index_msg)
  | PInfo _ => Raise (KeyError "dlhub")
  end.

(** [a < b] for an integer [b]: integers compare, dictionaries and lists do
    not. *)
Definition py_lt (a : pyobj) (b : Z) : result bool :=
  match a with
  | PInt z => Ok (z <? b)%Z
  | PDoc _ | PInfo _ => Raise (TypeError dict_int_lt_msg)
  | PList _ => Raise (TypeError list_int_lt_msg)
  end.

(** A dictionary with string keys, its entries in insertion order: the
    order of [dict.values()] from Python 3.7 on (and on CPython 3.6).  On the
    interpreters 3.4 and 3.5, which [setup.py] admits as well, [values()]
    gives the same values in an order of its own; the properties of
    [search_by_servable] say which documents come back, not in which order. *)
Definition pydict (V : Type) : Type := list (string * V).

(** [d.get(k, default)]. *)
Fixpoint dict_get {V} (d : pydict V) (k : string) (default : V) : V :=
  match d with
  | [] => default
  | (k', v) :: d' => if decide (k' = k) then v else dict_get d' k default
  end.

(** [d[k] = v]: an existing key keeps its position, a new key goes last. *)
Fixpoint dict_set {V} (d : pydict V) (k : string) (v : V) : pydict V :=
  match d with
  | [] => [(k, v)]
  | (k', v') :: d' =>
      if decide (k' = k) then (k, v) :: d' else (k', v') :: dict_set d' k v
  end.

(** [d.values()]. *)
Definition dict_values {V} (d : pydict V) : list V := d.*2.

(** [results[0] = v]. *)
Definition setitem0 (results : search_output) (v : pyobj) : result search_output :=
  match results with
  | ResultList [] => Raise (IndexError list_assign_msg)
  | ResultList (_ :: l) => Ok (ResultList (v :: l))
  | ResultTuple _ _ => Raise (TypeError tuple_assign_msg)
  end.

(** The order the servable listing asks the index for: owner ascending, then
    name descending, then publication date descending. *)
Definition listing_order (a b : doc) : Prop :=
  strict String.le (owner (dlhub a)) (owner (dlhub b)) ∨
  (owner (dlhub a) = owner (dlhub b) ∧
   (strict String.le (name (dlhub b)) (name (dlhub a)) ∨
    (name (dlhub a) = name (dlhub b) ∧
     (publication_date (dlhub b) ≤ publication_date (dlhub a))%Z))).

Global Instance listing_order_dec : RelDecision listing_order.
Proof. intros a b. unfold listing_order. apply _. Defined.

End Docs.
Export Docs.

(** ** The service client, [dlhub_sdk/client.py] *)

Module Client.

(** Calls that leave the process, as the client issues them. *)
Inductive remote_call :=
| CallSearch (q : query) (limit : option Z) (info : bool)
| CallGet (path : string)
| CallPost (path : string) (json_body : json)
| CallPublish (url : string) (headers : json) (metadata : json) (zip_filename : string).

(** The state the client acts on: the remote calls made so far and the files
    present on disk. *)
Record world := World { calls : list remote_call; files : gset string }.

Definition log (c : remote_call) (w : world) : world :=
  World (calls w ++ [c]) (files w).

(** The client's methods compute in a state and exception monad. *)
Definition M (A : Type) : Type := world → result A * world.

#[global] Instance M_ret : MRet M := λ A a w, (Ok a, w).

#[global] Instance M_bind : MBind M := λ A B f m w,
  match m w with
  | (Ok a, w') => f a w'
  | (Raise e, w') => (Raise e, w')
  end.

Definition raise {A} (e : exn) : M A := λ w, (Raise e, w).

(** A computation that cannot touch the world. *)
Definition lift {A} (r : result A) : M A := λ w, (r, w).

(** [try: body finally: handler]: the handler always runs; when it raises,
    its exception replaces the outcome of the body. *)
Definition try_finally {A} (body : M A) (handler : M unit) : M A := λ w,
  let '(r, w1) := body w in
  match handler w1 with
  | (Ok _, w2) => (r, w2)
  | (Raise e, w2) => (Raise e, w2)
  end.

(** [DLHubClient.__init__] decides whether to call [login]: the arguments are
    the truth values of [dlh_authorizer] and [search_client]. *)
Definition init_logs_in (force_login dlh_authorizer search_client : bool) : bool :=
  force_login || negb dlh_authorizer || negb search_client.

(** What [DLHubClient.__init__] leaves behind: the authorizer handed to
    [BaseClient.__init__], the attribute [_search_client] when it was assigned,
    and whether [login] was called. *)
Record client_attrs (A S : Type) := ClientAttrs {
  authorizer : option A;
  _search_client : option S;
  logged_in : bool
}.
Arguments ClientAttrs {A S} _ _ _.
Arguments authorizer {A S} _.
Arguments _search_client {A S} _.
Arguments logged_in {A S} _.

(** [DLHubClient.__init__]: [auth_res] is what [login] returns, its [dlhub]
    authorizer and its [search] client; an argument left out is [None]. *)
Definition client_init {A S} (auth_res : A * S) (dlh_authorizer : option A)
    (search_client : option S) (force_login : bool) : client_attrs A S :=
  if init_logs_in force_login (bool_decide (is_Some dlh_authorizer))
       (bool_decide (is_Some search_client))
  then ClientAttrs (Some auth_res.1) (Some auth_res.2) true
  else ClientAttrs dlh_authorizer None false.

Definition no_search_client_msg : string :=
  "'DLHubClient' object has no attribute '_search_client'".

(** The property [DLHubClient.query] reads [self._search_client] to build its
    helper. *)
Definition query_helper {A S} (self : client_attrs A S) : result S :=
  match _search_client self with
  | Some search_client => Ok search_client
  | None => Raise (AttributeError no_search_client_msg)
  end.

Definition servables_query : query :=
  [ match_field "dlhub.type" "servable";
    add_sort "dlhub.owner" true;
    add_sort "dlhub.name" false;
    add_sort "dlhub.publication_date" false ].

Definition too_many_servables_msg : string :=
  "DLHub contains more servables than we can return in one entry. DLHub SDK needs to be updated.".

(** The loop of [get_servables]: [names] is the set of shorthand names seen,
    [output] the entries kept so far. *)
Fixpoint latest_versions (results : list doc) (names : gset string)
    (output : list doc) : list doc :=
  match results with
  | [] => output
  | r :: rest =>
      let name := shorthand_name (dlhub r) in
      if decide (name ∈ names)
      then latest_versions rest names output
      else latest_versions rest ({[name]} ∪ names) (output ++ [r])
  end.

Definition required_msg : string :=
  "One of 'servable_name', 'owner', or 'publication_date' is required.".

(** The loop of [search_by_servable] over the items of [results];
    [latest_res] is the dictionary being filled. *)
Fixpoint latest_loop (items : list pyobj) (latest_res : pydict pyobj)
    : result (pydict pyobj) :=
  match items with
  | [] => Ok latest_res
  | res :: rest =>
      match getitem_dlhub res with
      | Raise e => Raise e
      | Ok blk =>
          let ident := owner blk +:+ name blk in
          match py_lt (dict_get latest_res "ident" (PInt (-1))) (publication_date blk) with
          | Raise e => Raise e
          | Ok true => latest_loop rest (dict_set latest_res ident res)
          | Ok false => latest_loop rest latest_res
          end
      end
  end.

(** [os.unlink]. *)
Definition unlink (path : string) : M unit := λ w,
  if decide (path ∈ files w)
  then (Ok (), World (calls w) (files w ∖ {[path]}))
  else (Raise (FileNotFoundError path), w).

(** [mkstemp] creates the file it names; [os.close] leaves it in place. *)
Definition mkstemp (path : string) : M string := λ w,
  (Ok path, World (calls w) ({[path]} ∪ files w)).

(** [open(path, 'rb')]. *)
Definition open_rb (path : string) : M unit := λ w,
  if decide (path ∈ files w) then (Ok (), w) else (Raise (FileNotFoundError path), w).

(** What [publish_servable] asks of the description model it is given. *)
Record metadata_model := MetadataModel {
  to_dict : bool → result json;
  get_zip_file : string → M unit
}.

Section client.

(** [SEARCH_LIMIT] of [mdf_toolbox.search_helper]. *)
Variable SEARCH_LIMIT : Z.

(** The search helper and the index behind it: what executing a query with a
    limit yields, either an exception or the matching documents with the query
    information. *)
Variable search_helper : query → option Z → result (list doc * query_info).

(** The REST service behind [BaseClient.get] and [BaseClient.post]. *)
Variable http_get : string → result response.
Variable http_post : string → json → result response.

(** [r.json()] on a reply of [BaseClient.get]: the reply class belongs to
    [globus_sdk], so what the call gives, the decoded body or an
    [AttributeError] where the class has no such method, is left open. *)
Variable response_json : response → result json.

(** [jsonpickle.encode]. *)
Variable jsonpickle_encode : json → string.

(** Collaborators of [publish_servable]: the schema validator, the name
    [mkstemp] picks, the authorization header, the URL [slash_join] builds and
    the reply of [requests.post]. *)
Variable validate_against_dlhub_schema : json → string → result unit.
Variable zip_filename : string.
Variable authorization_header : result json.
Variable publish_url : string.
Variable requests_post : string → json → json → result response.

(** [self.query....search(limit=limit, info=True)] on a client that holds a
    search client, as every client that logged in does: the pair of results
    and information.  On a client built from an authorizer and a search
    client of the caller's, [_search_client] was never assigned and reading
    [self.query] raises [AttributeError] before any call ([client_init],
    [query_helper]); the methods below are those of the former client. *)
Definition search_with_info (q : query) (limit : option Z) : M (list doc * query_info) :=
  λ w, (search_helper q limit, log (CallSearch q limit true) w).

(** [.search(limit=limit)]: the plain result list. *)
Definition search_plain (q : query) (limit : option Z) : M (list doc) :=
  λ w, (match search_helper q limit with
        | Ok (docs, _) => Ok docs
        | Raise e => Raise e
        end, log (CallSearch q limit false) w).

(** Modelled from the spec: [search] of the search helper
    ([dlhub_sdk/utils/search.py] and [mdf_toolbox] are not among the sources)
    returns either a plain result list or a [(results, info)] pair when the
    caller requests the query information. *)
Definition search (q : query) (limit : option Z) (info : bool) : M search_output :=
  if info
  then '(docs, qi) ← search_with_info q limit; mret (ResultTuple (PDoc <$> docs) qi)
  else docs ← search_plain q limit; mret (ResultList (PDoc <$> docs)).

Definition get_servables (only_latest_version : bool) : M (list doc) :=
  '(results, info) ← search_with_info servables_query None;
  if (SEARCH_LIMIT <? total_query_matches info)%Z
  then raise (RuntimeError too_many_servables_msg)
  else if only_latest_version
       then mret (latest_versions results ∅ [])
       else mret results.

Definition list_servables : M (list string) :=
  servables ← get_servables true;
  mret ((λ x, shorthand_name (dlhub x)) <$> servables).

Definition get (path : string) : M response :=
  λ w, (http_get path, log (CallGet path) w).

Definition post (path : string) (json_body : json) : M response :=
  λ w, (http_post path json_body, log (CallPost path json_body) w).

Definition get_task_status (task_id : string) : M json :=
  r ← get (task_id +:+ "/status");
  lift (response_json r).

Definition describe_servable (owner name : string) : M doc :=
  query ← search_plain
            [match_servable (Some name) None None; match_owner owner;
             add_sort "dlhub.publication_date" false] (Some 1%Z);
  match query with
  | [] => raise (AttributeError ("No such servable: " +:+ format_pair owner name))
  | d :: _ => mret d
  end.

Definition run (name : string) (inputs : json) (input_type : string) : M json :=
  let servable_path := "servables/" +:+ name +:+ "/run" in
  data ← (if String.eqb input_type "python"
          then mret (JDict {["python" := JStr (jsonpickle_encode inputs)]})
          else if String.eqb input_type "json"
          then mret (JDict {["data" := inputs]})
          else if String.eqb input_type "files"
          then raise (NotImplementedError "Files support is not yet implemented")
          else raise (ValueError ("Input type not recognized: " +:+ input_type)));
  r ← post servable_path data;
  if (http_status r =? 200)%Z
  then mret (Py.data r)
  else raise (Exception (ArgResponse r)).

Definition publish_servable (model : metadata_model) : M json :=
  metadata ← lift (to_dict model true);
  metadata ← lift (blk ← getitem metadata "dlhub";
                   blk ← setitem blk "transfer_method" (JDict {["POST" := JStr "file"]});
                   setitem metadata "dlhub" blk);
  _ ← lift (validate_against_dlhub_schema metadata "servable");
  zip_filename ← mkstemp zip_filename;
  _ ← unlink zip_filename;
  try_finally
    (_ ← get_zip_file model zip_filename;
     headers ← lift authorization_header;
     _ ← open_rb zip_filename;
     reply ← ((λ w, (requests_post publish_url headers metadata,
                     log (CallPublish publish_url headers metadata zip_filename) w)) : M response);
     if negb (http_status reply =? 200)%Z
     then raise (Exception (ArgText (text reply)))
     else lift (getitem (Py.data reply) "task_id"))
    (unlink zip_filename).

Definition publish_repository (repository : string) : M json :=
  response ← post "publish_repo" (JDict {["repository" := JStr repository]});
  lift (getitem (Py.data response) "task_id").

Definition search_by_servable (servable_name owner : option string) (version : option Z)
    (only_latest : bool) (limit : option Z) (info : bool) : M search_output :=
  if negb (truthy_str servable_name) && negb (truthy_str owner) && negb (truthy_int version)
  then raise (ValueError required_msg)
  else
    results ← search [match_servable servable_name owner version] limit info;
    if only_latest
    then
      latest_res ← lift (latest_loop (py_iter results) []);
      if info
      then lift (setitem0 results (PList (dict_values latest_res)))
      else mret (ResultList (dict_values latest_res))
    else mret results.

End client.

End Client.

(** ** The polling future, [dlhub_sdk/utils/futures.py] *)

Module Futures.

(** States of [concurrent.futures.Future]. *)
Inductive future_state :=
| PENDING
| RUNNING
| CANCELLED
| CANCELLED_AND_NOTIFIED
| FINISHED.

Record DLHubFuture := {
  _state : future_state;
  _result : option json;
  _exception : option exn;
  task_id : string;
  ping_interval : Q
}.

(** What a thread of the module does that can be observed from outside. *)
Inductive event :=
| EvSleep (seconds : Q)
| EvGetTaskStatus (task_id : string)
| EvLogin.

(** The callables of the module that can be handed to [Thread(target=...)]. *)
Inductive callable :=
| DLHubClient
| _ping_server_method.

Record Thread := { target : callable; args : DLHubFuture }.

(** How a thread ends: its target returned, an exception escaped, or it is
    still looping when the observation stops. *)
Inductive thread_outcome :=
| Returned
| Died (e : exn)
| StillPolling.

(** [Future.running]. *)
Definition super_running (self : DLHubFuture) : bool :=
  match _state self with
  | RUNNING => true
  | _ => false
  end.

(** [Future.set_result]. *)
Definition set_result (self : DLHubFuture) (v : json) : result DLHubFuture :=
  match _state self with
  | CANCELLED | CANCELLED_AND_NOTIFIED | FINISHED => Raise InvalidStateError
  | _ => Ok {| _state := FINISHED; _result := Some v; _exception := _exception self;
               task_id := task_id self; ping_interval := ping_interval self |}
  end.

(** [Future.set_exception]. *)
Definition set_exception (self : DLHubFuture) (e : exn) : result DLHubFuture :=
  match _state self with
  | CANCELLED | CANCELLED_AND_NOTIFIED | FINISHED => Raise InvalidStateError
  | _ => Ok {| _state := FINISHED; _result := _result self; _exception := Some e;
               task_id := task_id self; ping_interval := ping_interval self |}
  end.

(** [DLHubFuture.stop]. *)
Definition stop (self : DLHubFuture) : result DLHubFuture :=
  set_exception self (Exception (ArgText "Cancelled by user")).

(** [status['task'] == 'COMPLETED']. *)
Definition is_completed (task : json) : bool :=
  match task with
  | JStr s => String.eqb s "COMPLETED"
  | _ => false
  end.

(** Truth value of what [running] returns: [None], [False] or [True]. *)
Definition truthy (r : option bool) : bool :=
  match r with
  | Some b => b
  | None => false
  end.

(** [time.sleep(secs)], the library function: a negative length is refused
    with a [ValueError].  The lengths of the model are rationals, so [nan] and
    [inf] have no counterpart; that the clock of a platform also refuses
    lengths of centuries, each platform with an error of its own, is not
    modelled, and the properties that need the sleep to return are stated
    for the lengths every platform takes. *)
Definition sleep (secs : Q) : result unit :=
  if Qle_bool (inject_Z 0) secs
  then Ok ()
  else Raise (ValueError "sleep length must be non-negative").

(** [DLHubFuture.__init__]: the fresh future and the thread it starts. *)
Definition __init__ (task_id : string) (ping_interval : Q) : DLHubFuture * Thread :=
  let self := {| _state := PENDING; _result := None; _exception := None;
                 task_id := task_id; ping_interval := ping_interval |} in
  (self, {| target := DLHubClient; args := self |}).

Section polling.

(** The client's answers: [status_replies n] is what the [n]-th call of
    [get_task_status] returns or raises. *)
Variable status_replies : nat → result json.

(** How the [login] of the client's initializer ends. *)
Variable login : result unit.

(** [DLHubFuture.running], answered by the [n]-th reply; returns the value, the
    future afterwards and the events of the call. *)
Definition running (self : DLHubFuture) (n : nat)
    : result (option bool) * DLHubFuture * list event :=
  if super_running self
  then
    let evs := [EvGetTaskStatus (task_id self)] in
    match status_replies n with
    | Raise e => (Raise e, self, evs)
    | Ok status =>
        match getitem status "task" with
        | Raise e => (Raise e, self, evs)
        | Ok task =>
            if is_completed task
            then match getitem status "result" with
                 | Raise e => (Raise e, self, evs)
                 | Ok v =>
                     match set_result self v with
                     | Raise e => (Raise e, self, evs)
                     | Ok self' => (Ok (Some false), self', evs)
                     end
                 end
            else (Ok (Some true), self, evs)
        end
    end
  else (Ok None, self, []).

(** [DLHubFuture._ping_server]: [fuel] bounds the iterations observed and [n]
    counts the status requests made so far.  The [sleep] stands before the
    [try], so an exception of it ends the thread; inside the [try] only a
    [GlobusAPIError] is caught. *)
Fixpoint _ping_server (fuel : nat) (n : nat) (self : DLHubFuture)
    : thread_outcome * DLHubFuture * list event :=
  match fuel with
  | O => (StillPolling, self, [])
  | S fuel =>
      match sleep (ping_interval self) with
      | Raise e => (Died e, self, [EvSleep (ping_interval self)])
      | Ok _ =>
          let '(r, self', evs) := running self n in
          let continue :=
            let '(o, self'', evs') := _ping_server fuel (n + length evs) self' in
            (o, self'', EvSleep (ping_interval self) :: evs ++ evs') in
          match r with
          | Ok b =>
              if negb (truthy b)
              then (Returned, self', EvSleep (ping_interval self) :: evs)
              else continue
          | Raise (GlobusAPIError _) => continue
          | Raise e => (Died e, self', EvSleep (ping_interval self) :: evs)
          end
      end
  end.

(** What a started thread does: it calls its target on its argument.
    [DLHubClient(self)] runs the client's initializer with the future as
    [dlh_authorizer] and no search client. *)
Definition run_thread (fuel : nat) (t : Thread)
    : thread_outcome * DLHubFuture * list event :=
  match target t with
  | DLHubClient =>
      if Client.init_logs_in false true false
      then (match login with Ok _ => Returned | Raise e => Died e end, args t, [EvLogin])
      else (Returned, args t, [])
  | _ping_server_method => _ping_server fuel 0 (args t)
  end.

End polling.

End Futures.

(** ** The servable description models, [dlhub_sdk/models/servables] *)

Module Models.

(** Modelled from the spec: [compose_argument_block] of
    [dlhub_sdk/utils/types.py], which is not among the sources; the typed
    argument descriptor has [type], [description] and the type-specific fields
    [shape] and [item_type], as the tests spell them. *)
Definition compose_argument_block (data_type description : string)
    (shape : option (list (option Z))) (item_type : option string) : json :=
  let block : gmap string json :=
    {["type" := JStr data_type; "description" := JStr description]} in
  let block :=
    match shape with
    | Some dims =>
        <["shape" := JList ((λ d, match d with Some n => JInt n | None => JNone end) <$> dims)]> block
    | None => block
    end in
  let block :=
    match item_type with
    | Some t => <["item_type" := JDict {["type" := JStr t]}]> block
    | None => block
    end in
  JDict block.

(** Modelled from the spec: the state of a servable description model
    ([dlhub_sdk/models] is not among the sources): the fields its setters
    fill, the shim and method details its variant derives, and the input and
    output descriptors, unset until [set_inputs] and [set_outputs] are called. *)
Record servable_model := {
  title : option string;
  name : option string;
  files : gmap string string;
  servable_type : string;
  shim : string;
  input : option json;
  output : option json;
  parameters : gmap string json;
  method_details : gmap string json
}.

(** Modelled from the spec: the fluent setters of the metadata model. *)
Definition set_title (t : string) (m : servable_model) : servable_model :=
  {| title := Some t; name := name m; files := files m;
     servable_type := servable_type m; shim := shim m; input := input m;
     output := output m; parameters := parameters m;
     method_details := method_details m |}.

(** Modelled from the spec: the fluent setters of the metadata model. *)
Definition set_name (n : string) (m : servable_model) : servable_model :=
  {| title := title m; name := Some n; files := files m;
     servable_type := servable_type m; shim := shim m; input := input m;
     output := output m; parameters := parameters m;
     method_details := method_details m |}.

(** Modelled from the spec: [set_inputs] records the input descriptor. *)
Definition set_inputs (data_type description : string)
    (shape : option (list (option Z))) (item_type : option string)
    (m : servable_model) : servable_model :=
  {| title := title m; name := name m; files := files m;
     servable_type := servable_type m; shim := shim m;
     input := Some (compose_argument_block data_type description shape item_type);
     output := output m; parameters := parameters m;
     method_details := method_details m |}.

(** Modelled from the spec: [set_outputs] records the output descriptor. *)
Definition set_outputs (data_type description : string)
    (shape : option (list (option Z))) (item_type : option string)
    (m : servable_model) : servable_model :=
  {| title := title m; name := name m; files := files m;
     servable_type := servable_type m; shim := shim m; input := input m;
     output := Some (compose_argument_block data_type description shape item_type);
     parameters := parameters m; method_details := method_details m |}.

(** A Python function as the static-method model reads it: [__module__] and
    [__name__]. *)
Record function_pointer := { f_module : string; f_name : string }.

(** [math.sqrt]. *)
Definition math_sqrt : function_pointer := {| f_module := "math"; f_name := "sqrt" |}.

(** Modelled from the spec: the value of the [autobatch] argument of
    [from_function_pointer] when the caller leaves it out
    ([dlhub_sdk/models/servables/python.py] is not among the sources);
    [test_multiarg] builds its model without the argument and finds
    [False] in the method details. *)
Definition autobatch_default : bool := false.

(** Modelled from the spec: [PythonStaticMethodModel.from_function_pointer]
    ([dlhub_sdk/models/servables/python.py] is not among the sources): the
    static-method variant records the function's module and name and an
    autobatch flag, under the static-method shim. *)
Definition from_function_pointer (f : function_pointer) (autobatch : bool) : servable_model :=
  {| title := None; name := None; files := ∅;
     servable_type := "Python static method";
     shim := "python.PythonStaticMethodServable";
     input := None; output := None; parameters := ∅;
     method_details :=
       {["module" := JStr (f_module f); "method_name" := JStr (f_name f);
         "autobatch" := JBool autobatch]} |}.

(** Modelled from the spec: [PythonClassMethodModel.create_model]: the
    class-method variant ships the pickled object and records the class and
    method names, under the class-method shim. *)
Definition create_model (path class_name method : string)
    (function_kwargs : gmap string json) : servable_model :=
  {| title := None; name := None; files := {["pickle" := path]};
     servable_type := "Python class method";
     shim := "python.PythonClassMethodServable";
     input := None; output := None; parameters := function_kwargs;
     method_details :=
       {["class_name" := JStr class_name; "method_name" := JStr method]} |}.

(** Whether a path has a slash in it. *)
Fixpoint has_slash (path : string) : bool :=
  match path with
  | EmptyString => false
  | String c rest => Ascii.eqb c (Ascii.ascii_of_nat 47) || has_slash rest
  end.

(** [os.path.basename] on a POSIX path: what follows the last slash. *)
Fixpoint basename (path : string) : string :=
  match path with
  | EmptyString => EmptyString
  | String _ rest => if has_slash path then basename rest else path
  end.

Section to_dict.

(** The year of [datetime.now()] and [dlhub_sdk.version.__version__]. *)
Variable year : string.
Variable version : string.

(** Modelled from the spec: [to_dict] of the description models fails when the
    required fields (inputs, outputs) have not been set; otherwise it returns
    the finalized mapping with its [datacite], [dlhub] and [servable]
    sections, file paths rewritten to basenames under [simplify_paths].  The
    layout of the mapping is the one [test_function] compares against. *)
Definition to_dict (m : servable_model) (simplify_paths : bool) : result json :=
  match input m, output m with
  | None, _ => Raise (ValueError "Inputs have not been defined")
  | Some _, None => Raise (ValueError "Outputs have not been defined")
  | Some i, Some o =>
      let datacite : gmap string json :=
        {["creators" := JList [];
          "titles" := JList (match title m with
                             | Some t => [JDict {["title" := JStr t]}]
                             | None => []
                             end);
          "publisher" := JStr "DLHub";
          "resourceType" := JDict {["resourceTypeGeneral" := JStr "InteractiveResource"]};
          "identifier" := JDict {["identifier" := JStr "10.YET/UNASSIGNED";
                                  "identifierType" := JStr "DOI"]};
          "publicationYear" := JStr year;
          "descriptions" := JList [];
          "fundingReferences" := JList [];
          "relatedIdentifiers" := JList [];
          "alternateIdentifiers" := JList [];
          "rightsList" := JList []]} in
      let paths := if simplify_paths then basename <$> files m else files m in
      let dlhub : gmap string json :=
        {["version" := JStr version;
          "domains" := JList [];
          "visible_to" := JList [JStr "public"];
          "type" := JStr "servable";
          "files" := JDict (JStr <$> paths)]} in
      let dlhub :=
        match name m with
        | Some n => <["name" := JStr n]> dlhub
        | None => dlhub
        end in
      let run : gmap string json :=
        {["input" := i; "output" := o;
          "parameters" := JDict (parameters m);
          "method_details" := JDict (method_details m)]} in
      let servable : gmap string json :=
        {["type" := JStr (servable_type m);
          "shim" := JStr (shim m);
          "methods" := JDict {["run" := JDict run]}]} in
      Ok (JDict {["datacite" := JDict datacite; "dlhub" := JDict dlhub;
                  "servable" := JDict servable]})
  end.

End to_dict.

(** [j[k1][k2]...] when every step finds its key. *)
Fixpoint at_path (j : json) (keys : list string) : option json :=
  match keys with
  | [] => Some j
  | k :: keys =>
      match j with
      | JDict d => d !! k ≫= λ v, at_path v keys
      | _ => None
      end
  end.

End Models.

(** ** The Keras model, [dlhub_toolbox/models/servables/keras.py] *)

Module Keras.

Definition _get_handler : string := "keras.KerasServable".

Section keras.

(** The methods of the parent class [BasePythonServableModel] that the Keras
    model extends: its [to_dict] and its [_get_method_details]. *)
Variable super_to_dict : bool → result json.
Variable super_get_method_details : result json.

(** The attributes [create_model] stores: the names of the output classes and
    the captured model summary. *)
Variable output_names : json.
Variable summary : string.

Definition _get_method_details : result json :=
  output ← super_get_method_details;
  setitem output "classes" output_names.

(** [output['servable'][k] = v]. *)
Definition set_servable (output : json) (k : string) (v : json) : result json :=
  servable ← getitem output "servable";
  servable ← setitem servable k v;
  setitem output "servable" servable.

Definition to_dict (simplify_paths : bool) : result json :=
  output ← super_to_dict simplify_paths;
  output ← set_servable output "type" (JStr "Keras Model");
  output ← set_servable output "model_type" (JStr "Deep NN");
  output ← set_servable output "model_summary" (JStr summary);
  mret output.

End keras.

End Keras.

(** * Properties *)

Import Client.

Set Warnings "-clear-no-such-hyp".

(** ** Vocabulary *)

(** [r['dlhub']['shorthand_name']]. *)
Definition shorthand (d : doc) : string := shorthand_name (dlhub d).

(** The key [search_by_servable] files a document under. *)
Definition ident (d : doc) : string := owner (dlhub d) +:+ name (dlhub d).

(** One pass of the filter loop of [search_by_servable] when its guard holds. *)
Definition keep (latest_res : pydict doc) (d : doc) : pydict doc :=
  dict_set latest_res (ident d) d.

(** [d] is the last entry of [docs] filed under its key. *)
Definition last_of_its_key (docs : list doc) (d : doc) : Prop :=
  ∃ before after, docs = before ++ d :: after ∧ Forall (λ x, ident x ≠ ident d) after.

(** The test [search_by_servable] starts with. *)
Definition none_given (servable_name owner : option string) (version : option Z) : bool :=
  negb (truthy_str servable_name) && negb (truthy_str owner) && negb (truthy_int version).

(** A status document reporting completion with the payload [v]. *)
Definition completed (v : json) : json :=
  JDict {["task" := JStr "COMPLETED"; "result" := v]}.

(** The body [run] posts for the two encodings it implements. *)
Definition run_body (jsonpickle_encode : json → string) (input_type : string)
    (inputs : json) : json :=
  if String.eqb input_type "python"
  then JDict {["python" := JStr (jsonpickle_encode inputs)]}
  else JDict {["data" := inputs]}.

(** The description [publish_servable] submits: the mapping of the model,
    marked with the transfer method and validated against the servable
    schema. *)
Definition prepare_metadata (validate_against_dlhub_schema : json → string → result unit)
    (model : metadata_model) : result json :=
  metadata ← to_dict model true;
  blk ← getitem metadata "dlhub";
  blk ← setitem blk "transfer_method" (JDict {["POST" := JStr "file"]});
  metadata ← setitem metadata "dlhub" blk;
  _ ← validate_against_dlhub_schema metadata "servable";
  mret metadata.

(** One pass of the filter loop of [search_by_servable] while the literal key
    is absent: the document is filed when its date exceeds the default. *)
Definition file_doc (latest_res : pydict doc) (d : doc) : pydict doc :=
  if (-1 <? publication_date (dlhub d))%Z then keep latest_res d else latest_res.

(** Whether the filter loop meets a stored document under the literal key: a
    document filed under that key is followed by another one. *)
Fixpoint meets_ident (docs : list doc) : bool :=
  match docs with
  | [] => false
  | d :: rest =>
      if bool_decide (ident d = "ident") && (-1 <? publication_date (dlhub d))%Z
      then negb (bool_decide (rest = []))
      else meets_ident rest
  end.

(** A reply after which [_ping_server] goes on polling: an error of the
    service, or a status whose task is not completed. *)
Definition keeps_polling (reply : result json) : bool :=
  match reply with
  | Raise (GlobusAPIError _) => true
  | Raise _ => false
  | Ok status =>
      match getitem status "task" with
      | Ok task => negb (Futures.is_completed task)
      | Raise _ => false
      end
  end.

(** The static-method models of a function [f]: what
    [from_function_pointer(f, autobatch)] builds, and whatever the setters of
    the title, the name, the inputs and the outputs make of it, in any order
    and number. *)
Inductive static_method_model (f : Models.function_pointer) (autobatch : bool)
    : Models.servable_model → Prop :=
| from_pointer :
    static_method_model f autobatch (Models.from_function_pointer f autobatch)
| with_title t m :
    static_method_model f autobatch m →
    static_method_model f autobatch (Models.set_title t m)
| with_name n m :
    static_method_model f autobatch m →
    static_method_model f autobatch (Models.set_name n m)
| with_inputs data_type description shape item_type m :
    static_method_model f autobatch m →
    static_method_model f autobatch
      (Models.set_inputs data_type description shape item_type m)
| with_outputs data_type description shape item_type m :
    static_method_model f autobatch m →
    static_method_model f autobatch
      (Models.set_outputs data_type description shape item_type m).

(** The lengths [sleep] takes on every platform: not negative, and at most
    10^8 seconds, the longest timeout that [select] is sure to take. *)
Definition sleeps (secs : Q) : bool :=
  Qle_bool (inject_Z 0) secs && Qle_bool secs (inject_Z 100000000).

(** The future once [set_result(v)] has run. *)
Definition finished (self : Futures.DLHubFuture) (v : json) : Futures.DLHubFuture :=
  {| Futures._state := Futures.FINISHED; Futures._result := Some v;
     Futures._exception := Futures._exception self;
     Futures.task_id := Futures.task_id self;
     Futures.ping_interval := Futures.ping_interval self |}.

(** The events of [k] rounds of polling: a sleep, then a status request. *)
Definition rounds (self : Futures.DLHubFuture) (k : nat) : list Futures.event :=
  mjoin (replicate k [Futures.EvSleep (Futures.ping_interval self);
                      Futures.EvGetTaskStatus (Futures.task_id self)]).

(** *** Sample data *)

(** A version of the servable [o/n] published at [date]. *)
Definition servable_version (o n : string) (date : Z) : doc :=
  Doc (DlhubBlock o n (o +:+ "/" +:+ n) date).

Definition empty_world : world := World [] ∅.

(** A listing in the order [get_servables] asks for. *)
Definition listing_docs : list doc :=
  [ servable_version "ann" "zeta" 30; servable_version "ann" "zeta" 10;
    servable_version "ann" "alpha" 7; servable_version "bob" "alpha" 5;
    servable_version "bob" "alpha" 2 ].

Definition listing_index : query → option Z → result (list doc * query_info) :=
  λ _ _, Ok (listing_docs, QueryInfo 5).

(** Search results with the newer version of [ann/zeta] first. *)
Definition version_docs : list doc :=
  [ servable_version "ann" "zeta" 30; servable_version "ann" "zeta" 10;
    servable_version "bob" "alpha" 5 ].

Definition version_index : query → option Z → result (list doc * query_info) :=
  λ _ _, Ok (version_docs, QueryInfo 3).

(** Two versions of the servable [ent] of the owner [id]. *)
Definition ident_docs : list doc :=
  [ servable_version "id" "ent" 1; servable_version "id" "ent" 2 ].

Definition ident_index : query → option Z → result (list doc * query_info) :=
  λ _ _, Ok (ident_docs, QueryInfo 2).

Definition empty_index : query → option Z → result (list doc * query_info) :=
  λ _ _, Ok ([], QueryInfo 0).

(** A description model whose archive is written, and a service that answers
    the publication with status 500. *)
Definition sample_model : metadata_model :=
  {| to_dict := λ _, Ok (JDict {["dlhub" := JDict ∅]});
     get_zip_file := λ path w, (Ok (), World (calls w) ({[path]} ∪ files w)) |}.

Definition failing_service : string → json → json → result response :=
  λ _ _ _, Ok (Response 500 JNone "Internal Server Error").

(** The model of [test_function]. *)
Definition sqrt_model : Models.servable_model :=
  Models.set_outputs "float" "Square root of the number" None None
    (Models.set_inputs "list" "List of numbers" None (Some "float")
       (Models.set_title "Python example"
          (Models.set_name "static_method"
             (Models.from_function_pointer Models.math_sqrt true)))).

(** The model of [math.sqrt] with the same inputs and outputs, built by
    [from_function_pointer(math.sqrt)] as [test_multiarg] builds its own: the
    autobatch flag is left at its default. *)
Definition default_sqrt_model : Models.servable_model :=
  Models.set_outputs "float" "Square root of the number" None None
    (Models.set_inputs "list" "List of numbers" None (Some "float")
       (Models.from_function_pointer Models.math_sqrt Models.autobatch_default)).

(** [correct_output] of [test_function]. *)
Definition correct_output (year version : string) : json :=
  JDict {[
    "datacite" := JDict {[
      "creators" := JList [];
      "titles" := JList [JDict {["title" := JStr "Python example"]}];
      "publisher" := JStr "DLHub";
      "resourceType" := JDict {["resourceTypeGeneral" := JStr "InteractiveResource"]};
      "identifier" := JDict {["identifier" := JStr "10.YET/UNASSIGNED";
                              "identifierType" := JStr "DOI"]};
      "publicationYear" := JStr year;
      "descriptions" := JList [];
      "fundingReferences" := JList [];
      "relatedIdentifiers" := JList [];
      "alternateIdentifiers" := JList [];
      "rightsList" := JList []]};
    "dlhub" := JDict {[
      "version" := JStr version;
      "domains" := JList [];
      "visible_to" := JList [JStr "public"];
      "name" := JStr "static_method";
      "type" := JStr "servable";
      "files" := JDict ∅]};
    "servable" := JDict {[
      "type" := JStr "Python static method";
      "shim" := JStr "python.PythonStaticMethodServable";
      "methods" := JDict {[
        "run" := JDict {[
          "input" := JDict {["type" := JStr "list";
                             "description" := JStr "List of numbers";
                             "item_type" := JDict {["type" := JStr "float"]}]};
          "output" := JDict {["type" := JStr "float";
                              "description" := JStr "Square root of the number"]};
          "parameters" := JDict ∅;
          "method_details" := JDict {["module" := JStr "math";
                                      "method_name" := JStr "sqrt";
                                      "autobatch" := JBool true]}]}]}]}]}.

(** The model of [test_pickle] before its inputs and outputs are described. *)
Definition pickle_model : Models.servable_model :=
  Models.set_name "class_method"
    (Models.set_title "Python example"
       (Models.create_model "model.pkl" "sklearn.svm.classes.SVC" "predict_proba"
          {["fake" := JStr "kwarg"]})).

(** A listing with one version of each servable. *)
Definition distinct_docs : list doc :=
  [ servable_version "ann" "zeta" 30; servable_version "ann" "alpha" 7;
    servable_version "bob" "alpha" 5 ].

Definition distinct_index : query → option Z → result (list doc * query_info) :=
  λ _ _, Ok (distinct_docs, QueryInfo 3).

(** Search results with a version dated before the epoch. *)
Definition dated_docs : list doc :=
  [ servable_version "ann" "zeta" 30; servable_version "bob" "alpha" 5;
    servable_version "ann" "zeta" (-5); servable_version "ann" "zeta" 10 ].

Definition dated_index : query → option Z → result (list doc * query_info) :=
  λ _ _, Ok (dated_docs, QueryInfo 4).

(** A service that accepts what it is sent, and one that refuses a run. *)
Definition accepting_service : string → json → json → result response :=
  λ _ _ _, Ok (Response 200 (JDict {["task_id" := JStr "task-1"]}) "").

Definition refusing_post : string → json → result response :=
  λ _ _, Ok (Response 500 (JDict {["task_id" := JStr "task-1"]}) "Internal Server Error").

Definition accepting_post : string → json → result response :=
  λ _ _, Ok (Response 200 (JStr "done") "").

(** A schema validator that rejects every description. *)
Definition rejecting_validator : json → string → result unit :=
  λ _ _, Raise (ValueError "schema").

(** A description model whose archive is never written. *)
Definition archiveless_model : metadata_model :=
  {| to_dict := λ _, Ok (JDict {["dlhub" := JDict ∅]});
     get_zip_file := λ _ w, (Raise (ValueError "no files"), w) |}.

(** A future that is being polled, and a service that reports the task as
    running twice before it reports the result. *)
Definition polled_future : Futures.DLHubFuture :=
  {| Futures._state := Futures.RUNNING; Futures._result := None;
     Futures._exception := None; Futures.task_id := "task-1";
     Futures.ping_interval := Qmake 1 2 |}.

Definition slow_service : nat → result json :=
  λ n, if (n <? 2)%nat then Ok (JDict {["task" := JStr "RUNNING"]})
       else Ok (completed (JInt 42)).

Definition failing_status : nat → result json :=
  λ _, Raise (GlobusAPIError "service unavailable").

(** What the parent class of a Keras model returns for its description. *)
Definition parent_output : gmap string json :=
  {["datacite" := JDict ∅;
    "servable" := JDict {["type" := JStr "Python class method";
                          "shim" := JStr "keras.KerasServable"]}]}.

Ltac unfold_M :=
  unfold mbind, M_bind, mret, M_ret, raise, lift, result_bind, result_ret in *.

(** ** The listing of servables *)

Lemma latest_versions_prefix results : ∀ names output,
  ∃ more, latest_versions results names output = output ++ more ∧
          ∀ r, r ∈ more → r ∈ results.
Proof.
  induction results as [|r rest IH]; intros names output; simpl.
  - exists []. split; [by rewrite app_nil_r | set_solver].
  - case_decide.
    + destruct (IH names output) as (more & -> & Hin). exists more. set_solver.
    + destruct (IH ({[shorthand_name (dlhub r)]} ∪ names) (output ++ [r]))
        as (more & -> & Hin).
      exists (r :: more). rewrite <- app_assoc. set_solver.
Qed.

Lemma latest_versions_NoDup results : ∀ names output,
  (∀ s, s ∈ names ↔ s ∈ shorthand <$> output) →
  NoDup (shorthand <$> output) →
  NoDup (shorthand <$> latest_versions results names output).
Proof.
  induction results as [|r rest IH]; intros names output Hnames Hnd; simpl; [done|].
  case_decide as Hin; [by apply IH|].
  apply IH.
  - intros s. rewrite fmap_app, elem_of_app, elem_of_union, <- Hnames. set_solver.
  - rewrite fmap_app. apply NoDup_app. split; [done|]. split.
    + intros s Hs. rewrite <- Hnames in Hs. set_solver.
    + apply NoDup_singleton.
Qed.

(** An entry the loop adds is the first of the results under its name. *)
Lemma latest_versions_first results : ∀ names output r',
  r' ∈ latest_versions results names output →
  r' ∈ output ∨
  ∃ before after, results = before ++ r' :: after ∧
                  (shorthand r' ∉ names) ∧
                  ∀ x, x ∈ before → shorthand x ≠ shorthand r'.
Proof.
  induction results as [|r rest IH]; intros names output r' Hr'; simpl in Hr'; [by left|].
  case_decide as Hin.
  - destruct (IH _ _ _ Hr') as [?|(before & after & -> & Hnot & Hbefore)]; [by left|].
    right. exists (r :: before), after. split; [done|]. split; [done|].
    intros x [->|Hx]%elem_of_cons; [|by apply Hbefore].
    intros Heq. apply Hnot. by rewrite <- Heq.
  - destruct (IH _ _ _ Hr') as [Hout|(before & after & -> & Hnot & Hbefore)].
    + apply elem_of_app in Hout as [?|Hone]; [by left|].
      apply list_elem_of_singleton in Hone as ->.
      right. exists [], rest. split; [done|]. split; [done|]. set_solver.
    + right. exists (r :: before), after. split; [done|].
      split; [set_solver|].
      intros x [->|Hx]%elem_of_cons; [|by apply Hbefore].
      intros Heq. apply Hnot. rewrite <- Heq. set_solver.
Qed.

Lemma latest_versions_covers results : ∀ names output r,
  (∀ s, s ∈ names → s ∈ shorthand <$> output) →
  r ∈ results →
  ∃ r', r' ∈ latest_versions results names output ∧ shorthand r' = shorthand r.
Proof.
  induction results as [|r0 rest IH]; intros names output r Hnames Hr; [set_solver|].
  simpl. apply elem_of_cons in Hr as [->|Hr].
  - case_decide as Hin.
    + apply Hnames, list_elem_of_fmap in Hin as (r' & Heq & Hr').
      exists r'. split; [|done].
      destruct (latest_versions_prefix rest names output) as (more & -> & _). set_solver.
    + exists r0. split; [|done].
      destruct (latest_versions_prefix rest ({[shorthand_name (dlhub r0)]} ∪ names)
                  (output ++ [r0])) as (more & -> & _). set_solver.
  - case_decide as Hin; apply IH; try done.
    intros s Hs. rewrite fmap_app. set_solver.
Qed.

Lemma listing_order_same_servable (a b : doc) :
  listing_order a b →
  owner (dlhub a) = owner (dlhub b) →
  name (dlhub a) = name (dlhub b) →
  (publication_date (dlhub b) ≤ publication_date (dlhub a))%Z.
Proof.
  intros [[_ Hnot]|[_ [[_ Hnot]|[_ Hle]]]] Ho Hn; [| |done].
  - exfalso. apply Hnot. by rewrite Ho.
  - exfalso. apply Hnot. by rewrite Hn.
Qed.

(** The listing order is a total preorder, so a list the index sorted by it
    is strongly sorted. *)
Lemma listing_order_trans : Transitive listing_order.
Proof.
  intros a b c. unfold listing_order.
  intros [Hab|[Hab Hnab]] [Hbc|[Hbc Hnbc]].
  - left. by etrans.
  - left. by rewrite <- Hbc.
  - left. by rewrite Hab.
  - right. split; [congruence|].
    destruct Hnab as [Hnab|[Hnab Hdab]], Hnbc as [Hnbc|[Hnbc Hdbc]].
    + left. by etrans.
    + left. by rewrite <- Hnbc.
    + left. by rewrite Hnab.
    + right. split; [congruence|lia].
Qed.

Lemma string_lt_trichotomy (s t : string) :
  strict String.le s t ∨ s = t ∨ strict String.le t s.
Proof.
  destruct (decide (s = t)) as [->|Hne]; [by right; left|].
  destruct (total String.le s t) as [Hle|Hle].
  - left. split; [done|]. intros Hge. apply Hne. by apply (anti_symm String.le).
  - right. right. split; [done|]. intros Hge. apply Hne. by apply (anti_symm String.le).
Qed.

Lemma listing_order_total : Total listing_order.
Proof.
  intros a b. unfold listing_order.
  destruct (string_lt_trichotomy (owner (dlhub a)) (owner (dlhub b)))
    as [?|[Ho|?]]; [by left; left| |by right; left].
  destruct (string_lt_trichotomy (name (dlhub a)) (name (dlhub b)))
    as [?|[Hn|?]]; [right; right; split; [done|by left]| |left; right; split; [done|by left]].
  destruct (Z.le_ge_cases (publication_date (dlhub a)) (publication_date (dlhub b))).
  - right. right. split; [done|]. right. split; [done|done].
  - left. right. split; [done|]. right. split; [done|lia].
Qed.

Lemma sorted_listing (docs : list doc) :
  Sorted listing_order docs → StronglySorted listing_order docs.
Proof. apply Sorted_StronglySorted, listing_order_trans. Qed.

(** C1: when the index answers the listing query within the search limit, in
    the order the query asks for (owner ascending, name descending,
    publication date descending), and a shorthand name stands for one owner
    and name, [get_servables(only_latest_version=True)] returns entries of the
    results with pairwise distinct shorthand names, and every result has an
    entry of its shorthand name in the output that is at least as recent. *)
Theorem get_servables_only_latest (SEARCH_LIMIT : Z)
    (search_helper : query → option Z → result (list doc * query_info))
    (w : world) (docs : list doc) (qi : query_info) :
  search_helper servables_query None = Ok (docs, qi) →
  (total_query_matches qi ≤ SEARCH_LIMIT)%Z →
  StronglySorted listing_order docs →
  (∀ a b, a ∈ docs → b ∈ docs → shorthand a = shorthand b →
          owner (dlhub a) = owner (dlhub b) ∧ name (dlhub a) = name (dlhub b)) →
  ∃ out, (get_servables SEARCH_LIMIT search_helper true w).1 = Ok out ∧
         NoDup (shorthand <$> out) ∧
         (∀ r, r ∈ out → r ∈ docs) ∧
         (∀ r, r ∈ docs →
               ∃ r', r' ∈ out ∧ shorthand r' = shorthand r ∧
                     (publication_date (dlhub r) ≤ publication_date (dlhub r'))%Z).
Proof.
  intros Hsearch Hlimit Hsorted Hsame.
  exists (latest_versions docs ∅ []). split; [|split; [|split]].
  - unfold get_servables, search_with_info. unfold_M. rewrite Hsearch.
    by rewrite (proj2 (Z.ltb_ge _ _) Hlimit).
  - apply latest_versions_NoDup; [set_solver | constructor].
  - intros r Hr.
    destruct (latest_versions_prefix docs ∅ []) as (more & Heq & Hin).
    rewrite Heq in Hr. by apply Hin.
  - intros r Hr.
    destruct (latest_versions_covers docs ∅ [] r) as (r' & Hr' & Hname); [set_solver|done|].
    exists r'. split; [done|]. split; [done|].
    destruct (latest_versions_first _ _ _ _ Hr')
      as [Hnil|(before & after & Hdocs & _ & Hbefore)]; [set_solver|].
    assert (r' ∈ docs) as Hr'docs by (rewrite Hdocs; set_solver).
    rewrite Hdocs in Hr. apply elem_of_app in Hr as [Hr|Hr].
    { exfalso. apply (Hbefore r Hr). by symmetry. }
    apply elem_of_cons in Hr as [->|Hr]; [done|].
    rewrite Hdocs in Hsorted.
    apply StronglySorted_app_1_r, StronglySorted_inv in Hsorted as [_ Hall].
    rewrite Forall_forall in Hall.
    destruct (Hsame r' r) as [Ho Hn]; [done|rewrite Hdocs; set_solver|done|].
    apply listing_order_same_servable; [|done..].
    by apply Hall.
Qed.

Lemma get_servables_only_latest_witness :
  ∃ out, (get_servables 10000 listing_index true empty_world).1 = Ok out ∧
         NoDup (shorthand <$> out) ∧
         (∀ r, r ∈ out → r ∈ listing_docs) ∧
         (∀ r, r ∈ listing_docs →
               ∃ r', r' ∈ out ∧ shorthand r' = shorthand r ∧
                     (publication_date (dlhub r) ≤ publication_date (dlhub r'))%Z).
Proof.
  apply (get_servables_only_latest 10000 listing_index empty_world listing_docs
           (QueryInfo 5)).
  - reflexivity.
  - vm_compute. discriminate.
  - apply (bool_decide_unpack _). vm_compute. exact I.
  - intros a b Ha Hb.
    assert (Forall (λ a, Forall (λ b, shorthand a = shorthand b →
              owner (dlhub a) = owner (dlhub b) ∧ name (dlhub a) = name (dlhub b))
              listing_docs) listing_docs) as Hall
      by (apply (bool_decide_unpack _); vm_compute; exact I).
    rewrite Forall_forall in Hall. specialize (Hall a Ha).
    rewrite Forall_forall in Hall. exact (Hall b Hb).
Defined.

Example get_servables_listing :
  get_servables 10000 listing_index true empty_world =
    (Ok [ servable_version "ann" "zeta" 30; servable_version "ann" "alpha" 7;
          servable_version "bob" "alpha" 5 ],
     World [CallSearch servables_query None true] ∅).
Proof. reflexivity. Qed.

(** The listing fails once the index reports more matches than one page. *)
Lemma get_servables_too_many (SEARCH_LIMIT : Z)
    (search_helper : query → option Z → result (list doc * query_info))
    (only_latest_version : bool) (w : world) (docs : list doc) (qi : query_info) :
  search_helper servables_query None = Ok (docs, qi) →
  (SEARCH_LIMIT < total_query_matches qi)%Z →
  (get_servables SEARCH_LIMIT search_helper only_latest_version w).1 =
    Raise (RuntimeError too_many_servables_msg).
Proof.
  intros Hsearch Hlimit. unfold get_servables, search_with_info. unfold_M.
  rewrite Hsearch. by rewrite (proj2 (Z.ltb_lt _ _) Hlimit).
Qed.

(** ** Publication and the temporary archive *)

Lemma unlink_removes (path : string) (w : world) :
  path ∉ files (unlink path w).2.
Proof. unfold unlink. case_decide; simpl; set_solver. Qed.

Lemma unlink_created (path : string) (c : list remote_call) (fs : gset string) :
  unlink path (World c ({[path]} ∪ fs)) = (Ok (), World c (({[path]} ∪ fs) ∖ {[path]})).
Proof. unfold unlink. simpl. rewrite decide_True by set_solver. done. Qed.

(** Whatever the body does, the file is gone after [finally: os.unlink]. *)
Lemma try_finally_unlink {A} (body : M A) (path : string) (w : world) :
  path ∉ files ((try_finally body (unlink path) w).2).
Proof.
  unfold try_finally. destruct (body w) as [r w1].
  pose proof (unlink_removes path w1) as Hgone.
  by destruct (unlink path w1) as [[[]|e] w2].
Qed.

Lemma try_finally_ok {A} (body : M A) (handler : M unit) (w : world) (a : A) :
  (try_finally body handler w).1 = Ok a → (body w).1 = Ok a.
Proof.
  unfold try_finally. destruct (body w) as [r w1].
  by destruct (handler w1) as [[[]|e] w2].
Qed.

(** C3: when [mkstemp] names a file that does not exist yet, then after
    [publish_servable], however each step ends (the description, the
    validation, the archive, the header, the request and its reply), the
    temporary archive does not exist; and the call either raises or returns
    the task identifier of a reply with status 200: nothing in between. *)
Theorem publish_servable_removes_archive
    (validate_against_dlhub_schema : json → string → result unit)
    (zip_filename : string) (authorization_header : result json)
    (publish_url : string) (requests_post : string → json → json → result response)
    (model : metadata_model) (w : world) :
  zip_filename ∉ files w →
  let res := publish_servable validate_against_dlhub_schema zip_filename
               authorization_header publish_url requests_post model w in
  (zip_filename ∉ files res.2) ∧
  (is_ok res.1 = false ∨
   ∃ metadata headers reply task,
     requests_post publish_url headers metadata = Ok reply ∧
     http_status reply = 200%Z ∧
     getitem (data reply) "task_id" = Ok task ∧
     res.1 = Ok task).
Proof.
  intros Hfresh res. subst res. unfold publish_servable. unfold_M.
  destruct (to_dict model true) as [metadata|e]; simpl; [|by split; [|left]].
  destruct (getitem metadata "dlhub") as [blk|e]; simpl; [|by split; [|left]].
  destruct (setitem blk "transfer_method" _) as [blk'|e]; simpl; [|by split; [|left]].
  destruct (setitem metadata "dlhub" blk') as [metadata'|e]; simpl; [|by split; [|left]].
  destruct (validate_against_dlhub_schema metadata' "servable") as [[]|e]; simpl;
    [|by split; [|left]].
  rewrite unlink_created.
  split; [apply try_finally_unlink|].
  match goal with |- context [try_finally ?b ?h ?w0] =>
    destruct (try_finally b h w0).1 as [task|err] eqn:Hres; [|by left];
    apply try_finally_ok in Hres; revert Hres; generalize w0 end.
  intros w0 Hres. right.
  destruct (get_zip_file model zip_filename w0) as [[[]|e1] w1]; [|done].
  destruct authorization_header as [headers|e2] eqn:Hauth; [|done].
  unfold open_rb in Hres. destruct (decide (zip_filename ∈ files w1)); [|done].
  destruct (requests_post publish_url headers metadata') as [reply|e3] eqn:Hpost; [|done].
  simpl in Hres. destruct (http_status reply =? 200)%Z eqn:Hstatus; [|done].
  simpl in Hres.
  exists metadata', headers, reply, task.
  split; [done|]. split; [by apply Z.eqb_eq|]. split; [by destruct (getitem _ _)|done].
Qed.

Lemma publish_servable_removes_archive_witness :
  let res := publish_servable (λ _ _, Ok ()) "/tmp/tmpab12.zip" (Ok (JDict ∅))
               "https://dlhub.org/api/publish" failing_service sample_model
               empty_world in
  ("/tmp/tmpab12.zip" ∉ files res.2) ∧
  (is_ok res.1 = false ∨
   ∃ metadata headers reply task,
     failing_service "https://dlhub.org/api/publish" headers metadata = Ok reply ∧
     http_status reply = 200%Z ∧
     getitem (data reply) "task_id" = Ok task ∧
     res.1 = Ok task).
Proof.
  apply (publish_servable_removes_archive (λ _ _, Ok ()) "/tmp/tmpab12.zip"
           (Ok (JDict ∅)) "https://dlhub.org/api/publish" failing_service
           sample_model empty_world).
  simpl. apply not_elem_of_empty.
Defined.

(** A refused publication raises with the reply text, and leaves no file. *)
Example publish_servable_refused :
  publish_servable (λ _ _, Ok ()) "/tmp/tmpab12.zip" (Ok (JDict ∅))
    "https://dlhub.org/api/publish" failing_service sample_model empty_world =
  (Raise (Exception (ArgText "Internal Server Error")),
   World [CallPublish "https://dlhub.org/api/publish" (JDict ∅)
            (JDict {["dlhub" := JDict {["transfer_method" := JDict {["POST" := JStr "file"]}]}]})
            "/tmp/tmpab12.zip"] ∅).
Proof. vm_compute. reflexivity. Qed.

(** ** Running a servable *)

(** C5: [run(name, inputs, input_type='files')] raises [NotImplementedError]
    and leaves the world as it found it: no call, hence no POST, is made. *)
Theorem run_files_not_implemented (http_post : string → json → result response)
    (jsonpickle_encode : json → string) (name : string) (inputs : json) (w : world) :
  run http_post jsonpickle_encode name inputs "files" w =
    (Raise (NotImplementedError "Files support is not yet implemented"), w).
Proof. reflexivity. Qed.

(** The other encodings do reach the service: the POST is recorded. *)
Lemma run_json_posts (http_post : string → json → result response)
    (jsonpickle_encode : json → string) (name : string) (inputs : json) (w : world) :
  calls (run http_post jsonpickle_encode name inputs "json" w).2 =
    calls w ++ [CallPost ("servables/" +:+ name +:+ "/run") (JDict {["data" := inputs]})].
Proof.
  unfold run, post. unfold_M. simpl.
  destruct (http_post _ _) as [r|e]; [|done].
  by destruct (http_status r =? 200)%Z.
Qed.

(** ** Describing a servable *)

(** C6: when the query of [describe_servable(owner, name)] returns no
    document, the call raises [AttributeError] with a message naming
    [owner/name]; when it returns documents, the call returns the first. *)
Theorem describe_servable_lookup
    (search_helper : query → option Z → result (list doc * query_info))
    (owner name : string) (docs : list doc) (qi : query_info) (w : world) :
  search_helper [match_servable (Some name) None None; match_owner owner;
                 add_sort "dlhub.publication_date" false] (Some 1%Z) = Ok (docs, qi) →
  (docs = [] →
   (describe_servable search_helper owner name w).1 =
     Raise (AttributeError ("No such servable: " +:+ owner +:+ "/" +:+ name))) ∧
  (∀ d rest, docs = d :: rest →
   (describe_servable search_helper owner name w).1 = Ok d).
Proof.
  intros Hsearch. unfold describe_servable, search_plain. unfold_M.
  rewrite Hsearch. split; [by intros ->|by intros d rest ->].
Qed.

Lemma describe_servable_lookup_witness :
  (describe_servable empty_index "ann" "zeta" empty_world).1 =
    Raise (AttributeError "No such servable: ann/zeta") ∧
  (describe_servable version_index "ann" "zeta" empty_world).1 =
    Ok (servable_version "ann" "zeta" 30).
Proof.
  split.
  - exact (proj1 (describe_servable_lookup empty_index "ann" "zeta" [] (QueryInfo 0)
                    empty_world eq_refl) eq_refl).
  - exact (proj2 (describe_servable_lookup version_index "ann" "zeta" version_docs
                    (QueryInfo 3) empty_world eq_refl)
             (servable_version "ann" "zeta" 30) _ eq_refl).
Defined.

(** ** Searching by servable *)

Lemma log_changes (c : remote_call) (w : world) : log c w ≠ w.
Proof.
  intros Heq. apply (f_equal (λ w, length (calls w))) in Heq.
  simpl in Heq. rewrite length_app in Heq. simpl in Heq. lia.
Qed.

Lemma search_logs (search_helper : query → option Z → result (list doc * query_info))
    (q : query) (limit : option Z) (info : bool) (w : world) :
  (search search_helper q limit info w).2 = log (CallSearch q limit info) w.
Proof.
  unfold search, search_with_info, search_plain. unfold_M.
  destruct info, (search_helper q limit) as [[docs qi]|e]; done.
Qed.

(** The only trace [search_by_servable] leaves is its query. *)
Lemma search_by_servable_world
    (search_helper : query → option Z → result (list doc * query_info))
    (servable_name owner : option string) (version : option Z)
    (only_latest : bool) (limit : option Z) (info : bool) (w : world) :
  (search_by_servable search_helper servable_name owner version only_latest limit info w).2 =
    if none_given servable_name owner version then w
    else log (CallSearch [match_servable servable_name owner version] limit info) w.
Proof.
  unfold search_by_servable, none_given.
  destruct (_ && _); [done|].
  unfold mbind at 1, M_bind at 1.
  pose proof (search_logs search_helper [match_servable servable_name owner version]
                limit info w) as Hlog.
  destruct (search _ _ _ _ _) as [[results|e] w']; simpl in Hlog; subst w'; [|done].
  destruct only_latest; [|done].
  unfold_M. destruct (latest_loop _ _) as [latest_res|e]; [|done].
  destruct info; [|done].
  by destruct (setitem0 _ _).
Qed.

(** C7: [search_by_servable] stops with the [ValueError] of its first line,
    before any query, exactly when [servable_name], [owner] and [version] are
    all falsy; and it executes its query exactly when one of them is truthy. *)
Theorem search_by_servable_requires_argument
    (search_helper : query → option Z → result (list doc * query_info))
    (servable_name owner : option string) (version : option Z)
    (only_latest : bool) (limit : option Z) (info : bool) (w : world) :
  let res := search_by_servable search_helper servable_name owner version
               only_latest limit info w in
  (res = (Raise (ValueError required_msg), w) ↔
   truthy_str servable_name = false ∧ truthy_str owner = false ∧
   truthy_int version = false) ∧
  calls res.2 =
    calls w ++ (if truthy_str servable_name || truthy_str owner || truthy_int version
                then [CallSearch [match_servable servable_name owner version] limit info]
                else []).
Proof.
  intros res.
  pose proof (search_by_servable_world search_helper servable_name owner version
                only_latest limit info w) as Hworld.
  fold res in Hworld. unfold none_given in Hworld.
  destruct (truthy_str servable_name) eqn:Hn, (truthy_str owner) eqn:Ho,
    (truthy_int version) eqn:Hv; simpl in *.
  8: { split; [|by rewrite Hworld, app_nil_r].
       split; [done|]. intros _. subst res. unfold search_by_servable.
       by rewrite Hn, Ho, Hv. }
  all: split; [|by rewrite Hworld].
  all: split; [|by intros (? & ? & ?)].
  all: intros Heq; rewrite Heq in Hworld; simpl in Hworld.
  all: by apply eq_sym, log_changes in Hworld.
Qed.

(** Past its first line, [search_by_servable] raises no [ValueError] of its
    own: one that escapes was raised by the search helper. *)
Lemma search_by_servable_value_error_origin
    (search_helper : query → option Z → result (list doc * query_info))
    (servable_name owner : option string) (version : option Z)
    (only_latest : bool) (limit : option Z) (info : bool) (w : world) (msg : string) :
  none_given servable_name owner version = false →
  (search_by_servable search_helper servable_name owner version only_latest limit info w).1 =
    Raise (ValueError msg) →
  search_helper [match_servable servable_name owner version] limit = Raise (ValueError msg).
Proof.
  unfold none_given, search_by_servable. intros ->.
  unfold search, search_with_info, search_plain. unfold_M.
  destruct info, (search_helper _ limit) as [[docs qi]|e]; simpl; try congruence.
  - destruct only_latest; simpl; [|done]. by destruct docs.
  - destruct only_latest; simpl; [|done].
    destruct (latest_loop (PDoc <$> docs) []) as [latest_res|e] eqn:Hloop; simpl; [done|].
    intros [= ->]. exfalso. revert Hloop. generalize (@nil (string * pyobj)).
    induction docs as [|d docs IH]; intros acc; csimpl; [done|].
    destruct (py_lt _ _) as [[]|e] eqn:Hlt; [by apply IH..|].
    intros [= ->]. unfold py_lt in Hlt. by repeat case_match.
Qed.

(** *** Dictionaries in insertion order *)

Lemma dict_get_absent {V} (d : pydict V) (k : string) (v : V) :
  k ∉ d.*1 → dict_get d k v = v.
Proof.
  induction d as [|[k' v'] d IH]; simpl; [done|].
  intros Hk. case_decide; [set_solver|]. apply IH. set_solver.
Qed.

Lemma dict_set_fmap {V W} (f : V → W) (d : pydict V) (k : string) (v : V) :
  dict_set (prod_map id f <$> d) k (f v) = prod_map id f <$> dict_set d k v.
Proof.
  induction d as [|[k' v'] d IH]; csimpl; [done|].
  case_decide; csimpl; [done|]. by rewrite IH.
Qed.

Lemma dict_set_keys {V} (d : pydict V) (k : string) (v : V) (k' : string) :
  k' ∈ (dict_set d k v).*1 ↔ k' = k ∨ k' ∈ d.*1.
Proof.
  induction d as [|[k0 v0] d IH]; simpl; [set_solver|].
  case_decide; simpl; [set_solver|]. rewrite !elem_of_cons, IH. naive_solver.
Qed.

Lemma dict_set_NoDup {V} (d : pydict V) (k : string) (v : V) :
  NoDup d.*1 → NoDup (dict_set d k v).*1.
Proof.
  induction d as [|[k0 v0] d IH]; simpl; intros Hnd.
  - apply NoDup_singleton.
  - apply NoDup_cons in Hnd as [Hk0 Hnd]. case_decide as Heq; simpl.
    + subst. by apply NoDup_cons.
    + apply NoDup_cons. split; [|by apply IH].
      rewrite dict_set_keys. naive_solver.
Qed.

Lemma dict_set_elem {V} (d : pydict V) (k : string) (v : V) (k' : string) (v' : V) :
  NoDup d.*1 →
  (k', v') ∈ dict_set d k v ↔ (k' = k ∧ v' = v) ∨ (k' ≠ k ∧ (k', v') ∈ d).
Proof.
  induction d as [|[k0 v0] d IH]; simpl; intros Hnd.
  - rewrite list_elem_of_singleton. set_solver.
  - apply NoDup_cons in Hnd as [Hk0 Hnd]. case_decide as Heq.
    + subst k0. rewrite !elem_of_cons. split.
      * intros [[= -> ->]|Hin]; [by left|]. right. split; [|by right].
        intros ->. apply Hk0. apply list_elem_of_fmap. by exists (k, v').
      * intros [[-> ->]|[Hne [[= ? ?]|Hin]]]; [by left|done|by right].
    + rewrite !elem_of_cons, IH by done. split.
      * intros [[= -> ->]|[[-> ->]|[Hne Hin]]]; [right|left|right]; naive_solver.
      * intros [[-> ->]|[Hne [[= -> ->]|Hin]]]; [right; by left|by left|right; right; done].
Qed.

Lemma fmap_values_keys {V W} (f : V → W) (d : pydict V) :
  (prod_map id f <$> d).*1 = d.*1.
Proof. induction d as [|[k v] d IH]; csimpl; [done|]. by rewrite IH. Qed.

Lemma fmap_values_values {V W} (f : V → W) (d : pydict V) :
  dict_values (prod_map id f <$> d) = f <$> dict_values d.
Proof.
  unfold dict_values. induction d as [|[k v] d IH]; csimpl; [done|]. by rewrite IH.
Qed.

(** *** The latest-version filter *)

Lemma last_of_its_key_snoc (docs : list doc) (x d : doc) :
  last_of_its_key (docs ++ [x]) d ↔
    d = x ∨ (ident x ≠ ident d ∧ last_of_its_key docs d).
Proof.
  split.
  - intros (before & after & Heq & Hafter).
    destruct after as [|y after _] using rev_ind.
    + apply app_inj_tail in Heq as [_ ->]. by left.
    + rewrite app_comm_cons, app_assoc in Heq.
      apply app_inj_tail in Heq as [-> ->].
      apply Forall_app in Hafter as [Hafter Hx]. right. split.
      * by rewrite Forall_singleton in Hx.
      * by exists before, after.
  - intros [->|[Hne (before & after & -> & Hafter)]].
    + exists docs, []. by split.
    + exists before, (after ++ [x]). split; [by rewrite <- app_assoc|].
      apply Forall_app. split; [done|]. by apply Forall_singleton.
Qed.

(** While the literal key is absent and the dates exceed the default, the
    guard of the loop holds at every document: each is filed under its key. *)
Lemma latest_loop_keeps (docs : list doc) : ∀ acc : pydict doc,
  Forall (λ d, ident d ≠ "ident") docs →
  Forall (λ d, (-1 < publication_date (dlhub d))%Z) docs →
  "ident" ∉ acc.*1 →
  latest_loop (PDoc <$> docs) (prod_map id PDoc <$> acc) =
    Ok (prod_map id PDoc <$> foldl keep acc docs).
Proof.
  induction docs as [|d docs IH]; intros acc Hkeys Hdates Hacc; csimpl; [done|].
  apply Forall_cons in Hkeys as [Hkey Hkeys].
  apply Forall_cons in Hdates as [Hdate Hdates].
  rewrite dict_get_absent by (by rewrite fmap_values_keys). simpl.
  rewrite (proj2 (Z.ltb_lt _ _) Hdate).
  change (owner (dlhub d) +:+ name (dlhub d)) with (ident d).
  rewrite dict_set_fmap. apply IH; [done..|].
  unfold keep. rewrite dict_set_keys. naive_solver.
Qed.

Lemma keep_all_spec (docs : list doc) :
  NoDup (foldl keep [] docs).*1 ∧
  (∀ k d, (k, d) ∈ foldl keep [] docs → k = ident d) ∧
  (∀ d, d ∈ dict_values (foldl keep [] docs) ↔ last_of_its_key docs d).
Proof.
  induction docs as [|x docs (Hnd & Hkey & Hlast)] using rev_ind.
  - split; [constructor|]. split; [set_solver|].
    intros d. split; [set_solver|]. intros (before & after & Heq & _).
    by destruct before.
  - rewrite foldl_app. simpl. unfold keep at 1 3 5.
    split; [by apply dict_set_NoDup|]. split.
    + intros k d Hin. apply dict_set_elem in Hin; [|done].
      destruct Hin as [[-> ->]|[_ Hin]]; [done|]. by apply Hkey.
    + intros d. rewrite last_of_its_key_snoc, <- Hlast. unfold dict_values.
      rewrite !list_elem_of_fmap. split.
      * intros ([k d'] & -> & Hin). simpl.
        apply dict_set_elem in Hin; [|done].
        destruct Hin as [[-> ->]|[Hne Hin]]; [by left|].
        right. split.
        -- apply Hkey in Hin. by subst k.
        -- by exists (k, d').
      * intros [->|[Hne ([k d'] & -> & Hin)]].
        -- exists (ident x, x). split; [done|]. apply dict_set_elem; [done|]. by left.
        -- exists (k, d'). split; [done|]. apply dict_set_elem; [done|]. right.
           split; [|done]. simpl in Hne. apply Hkey in Hin. by subst k.
Qed.

Lemma keys_of_values (latest_res : pydict doc) :
  (∀ k d, (k, d) ∈ latest_res → k = ident d) →
  ident <$> dict_values latest_res = latest_res.*1.
Proof.
  unfold dict_values. induction latest_res as [|[k d] rest IH]; intros Hkey; csimpl; [done|].
  rewrite <- (Hkey k d) by set_solver. f_equal. apply IH. intros ???. apply Hkey. set_solver.
Qed.

(** C4, as amended: with [only_latest=True] and [info=False], when the query
    returns documents none of which has an owner-plus-name key equal to the
    literal ["ident"], all with a publication date above -1, the call returns
    one document per key, and a document is returned exactly when it is the
    last of the results under its key, whatever the publication dates. *)
Theorem search_by_servable_keeps_last
    (search_helper : query → option Z → result (list doc * query_info))
    (servable_name owner : option string) (version : option Z) (limit : option Z)
    (docs : list doc) (qi : query_info) (w : world) :
  truthy_str servable_name || truthy_str owner || truthy_int version = true →
  search_helper [match_servable servable_name owner version] limit = Ok (docs, qi) →
  Forall (λ d, ident d ≠ "ident") docs →
  Forall (λ d, (-1 < publication_date (dlhub d))%Z) docs →
  ∃ kept,
    (search_by_servable search_helper servable_name owner version true limit false w).1 =
      Ok (ResultList (PDoc <$> kept)) ∧
    NoDup (ident <$> kept) ∧
    ∀ d, d ∈ kept ↔ last_of_its_key docs d.
Proof.
  intros Hgiven Hsearch Hkeys Hdates.
  destruct (keep_all_spec docs) as (Hnd & Hkey & Hlast).
  exists (dict_values (foldl keep [] docs)). split; [|split; [|done]].
  - assert (latest_loop (PDoc <$> docs) [] =
            Ok (prod_map id PDoc <$> foldl keep [] docs)) as Hloop
      by (apply (latest_loop_keeps docs []); [done..|set_solver]).
    unfold search_by_servable.
    destruct (truthy_str servable_name), (truthy_str owner), (truthy_int version);
      try done; simpl.
    all: unfold search, search_plain; unfold_M; rewrite Hsearch; simpl.
    all: rewrite Hloop; simpl.
    all: by rewrite fmap_values_values.
  - by rewrite keys_of_values.
Qed.

Lemma search_by_servable_keeps_last_witness :
  ∃ kept,
    (search_by_servable version_index (Some "zeta") None None true None false
       empty_world).1 = Ok (ResultList (PDoc <$> kept)) ∧
    NoDup (ident <$> kept) ∧
    ∀ d, d ∈ kept ↔ last_of_its_key version_docs d.
Proof.
  apply (search_by_servable_keeps_last version_index (Some "zeta") None None None
           version_docs (QueryInfo 3) empty_world).
  - reflexivity.
  - reflexivity.
  - apply (bool_decide_unpack _). vm_compute. exact I.
  - apply (bool_decide_unpack _). vm_compute. exact I.
Defined.

(** C4, as stated, fails: two versions of the servable [ent] of the owner
    [id] are filed under the key ["ident"], the guard of the second pass
    compares a stored document with an integer, and the call raises
    [TypeError] instead of keeping the last version. *)
Lemma search_by_servable_ident_key_raises :
  search_by_servable ident_index (Some "ent") (Some "id") None true None false empty_world =
    (Raise (TypeError dict_int_lt_msg),
     World [CallSearch [match_servable (Some "ent") (Some "id") None] None false] ∅).
Proof. reflexivity. Qed.

(** The older version of [ann/zeta], which the results list last, is the one
    kept (the two documents in the order of an insertion-ordered dictionary). *)
Example search_by_servable_keeps_older_version :
  search_by_servable version_index (Some "zeta") None None true None false empty_world =
    (Ok (ResultList [PDoc (servable_version "ann" "zeta" 10);
                     PDoc (servable_version "bob" "alpha" 5)]),
     World [CallSearch [match_servable (Some "zeta") None None] None false] ∅).
Proof. reflexivity. Qed.

(** A publication date below the default of [dict.get] falsifies the guard:
    the document is dropped. *)
Example search_by_servable_drops_negative_date :
  (search_by_servable (λ _ _, Ok ([servable_version "ann" "zeta" (-5)], QueryInfo 1))
     (Some "zeta") None None true None false empty_world).1 = Ok (ResultList []).
Proof. reflexivity. Qed.

(** *** Asking for the query information *)

Lemma latest_loop_tuple (l : list pyobj) (i : query_info) (latest_res : pydict pyobj) :
  latest_loop (py_iter (ResultTuple l i)) latest_res = Raise (TypeError list_index_msg).
Proof. reflexivity. Qed.

(** C10, as amended: with [only_latest=True] and [info=True], whenever the
    query returns, the call raises [TypeError]: the search hands back the
    tuple of the results and the information, the loop iterates over these two
    components, and its first pass fails when it subscripts the list of
    results with a string.  The assignment [results[0] = ...] would raise
    [TypeError] on the tuple as well, and is never reached. *)
Theorem search_by_servable_info_type_error
    (search_helper : query → option Z → result (list doc * query_info))
    (servable_name owner : option string) (version : option Z) (limit : option Z)
    (docs : list doc) (qi : query_info) (w : world) :
  truthy_str servable_name || truthy_str owner || truthy_int version = true →
  search_helper [match_servable servable_name owner version] limit = Ok (docs, qi) →
  search_by_servable search_helper servable_name owner version true limit true w =
    (Raise (TypeError list_index_msg),
     log (CallSearch [match_servable servable_name owner version] limit true) w) ∧
  search search_helper [match_servable servable_name owner version] limit true w =
    (Ok (ResultTuple (PDoc <$> docs) qi),
     log (CallSearch [match_servable servable_name owner version] limit true) w) ∧
  py_iter (ResultTuple (PDoc <$> docs) qi) = [PList (PDoc <$> docs); PInfo qi] ∧
  getitem_dlhub (PList (PDoc <$> docs)) = Raise (TypeError list_index_msg) ∧
  ∀ v, setitem0 (ResultTuple (PDoc <$> docs) qi) v = Raise (TypeError tuple_assign_msg).
Proof.
  intros Hgiven Hsearch. split; [|split; [|done]].
  - unfold search_by_servable.
    destruct (truthy_str servable_name), (truthy_str owner), (truthy_int version);
      try done; simpl.
    all: unfold search, search_with_info; unfold_M; by rewrite Hsearch.
  - unfold search, search_with_info. unfold_M. by rewrite Hsearch.
Qed.

Lemma search_by_servable_info_type_error_witness :
  search_by_servable version_index (Some "zeta") None None true None true empty_world =
    (Raise (TypeError list_index_msg),
     log (CallSearch [match_servable (Some "zeta") None None] None true) empty_world) ∧
  search version_index [match_servable (Some "zeta") None None] None true empty_world =
    (Ok (ResultTuple (PDoc <$> version_docs) (QueryInfo 3)),
     log (CallSearch [match_servable (Some "zeta") None None] None true) empty_world) ∧
  py_iter (ResultTuple (PDoc <$> version_docs) (QueryInfo 3)) =
    [PList (PDoc <$> version_docs); PInfo (QueryInfo 3)] ∧
  getitem_dlhub (PList (PDoc <$> version_docs)) = Raise (TypeError list_index_msg) ∧
  ∀ v, setitem0 (ResultTuple (PDoc <$> version_docs) (QueryInfo 3)) v =
         Raise (TypeError tuple_assign_msg).
Proof.
  apply (search_by_servable_info_type_error version_index (Some "zeta") None None None
           version_docs (QueryInfo 3) empty_world); reflexivity.
Defined.

(** C10, as stated, fails: the [TypeError] that escapes is the one of the
    string subscript on the list inside the loop, not the one of an item
    assignment on the tuple, which the call never attempts. *)
Lemma search_by_servable_info_fails_in_loop :
  (search_by_servable version_index (Some "zeta") None None true None true empty_world).1 =
    Raise (TypeError list_index_msg) ∧
  (search_by_servable version_index (Some "zeta") None None true None true empty_world).1 ≠
    Raise (TypeError tuple_assign_msg) ∧
  latest_loop
    (py_iter (ResultTuple (PDoc <$> version_docs) (QueryInfo 3))) [] =
    Raise (TypeError list_index_msg).
Proof. split; [reflexivity|]. split; [discriminate|reflexivity]. Qed.

(** ** The polling future *)

(** C2, on the code: the thread that [DLHubFuture.__init__] starts has the
    class [DLHubClient] as its target, not [_ping_server].  Whatever the
    service would answer, that thread logs in and ends: it never sleeps, never
    asks for the task status, and leaves the future pending without a result. *)
Theorem constructor_thread_never_polls (status_replies : nat → result json)
    (login : result unit) (fuel : nat) (task_id : string) (ping_interval : Q) :
  let future := (Futures.__init__ task_id ping_interval).1 in
  let thread := (Futures.__init__ task_id ping_interval).2 in
  let run := Futures.run_thread status_replies login fuel thread in
  Futures.target thread = Futures.DLHubClient ∧
  run.2 = [Futures.EvLogin] ∧
  run.1.2 = future ∧
  Futures._state run.1.2 = Futures.PENDING ∧
  Futures._result run.1.2 = None.
Proof. repeat split. Qed.

(** A length that every platform sleeps for is one the model sleeps for. *)
Lemma sleeps_sleep (secs : Q) :
  sleeps secs = true → Futures.sleep secs = Ok ().
Proof.
  unfold sleeps, Futures.sleep. intros Hsecs.
  apply andb_true_iff in Hsecs as [-> _]. reflexivity.
Qed.

(** A sleep that raises ends [_ping_server] there: the thread dies with the
    exception of the sleep, before any request, and the future is as it was. *)
Lemma ping_server_sleep_raises (status_replies : nat → result json)
    (fuel n : nat) (self : Futures.DLHubFuture) (e : exn) :
  Futures.sleep (Futures.ping_interval self) = Raise e →
  Futures._ping_server status_replies (S fuel) n self =
    (Futures.Died e, self, [Futures.EvSleep (Futures.ping_interval self)]).
Proof. intros Hsleep. simpl. by rewrite Hsleep. Qed.

(** With a negative ping interval the first sleep raises, so the polling
    thread dies without a single status request. *)
Lemma ping_server_negative_interval (status_replies : nat → result json)
    (fuel n : nat) (self : Futures.DLHubFuture) :
  Qle_bool (inject_Z 0) (Futures.ping_interval self) = false →
  ∃ e, Futures._ping_server status_replies (S fuel) n self =
         (Futures.Died e, self, [Futures.EvSleep (Futures.ping_interval self)]).
Proof.
  intros Hneg. eexists. apply ping_server_sleep_raises.
  unfold Futures.sleep. by rewrite Hneg.
Qed.

(** The intended target, run on a future that is in the [RUNNING] state,
    sleeps for the ping interval, asks for the status and, on a completed
    task, sets the result and returns. *)
Lemma ping_server_running_completes (status_replies : nat → result json)
    (fuel n : nat) (self : Futures.DLHubFuture) (v : json) :
  sleeps (Futures.ping_interval self) = true →
  Futures._state self = Futures.RUNNING →
  status_replies n = Ok (completed v) →
  Futures._ping_server status_replies (S fuel) n self =
    (Futures.Returned,
     {| Futures._state := Futures.FINISHED; Futures._result := Some v;
        Futures._exception := Futures._exception self;
        Futures.task_id := Futures.task_id self;
        Futures.ping_interval := Futures.ping_interval self |},
     [Futures.EvSleep (Futures.ping_interval self);
      Futures.EvGetTaskStatus (Futures.task_id self)]).
Proof.
  intros Hsleep Hstate Hreply. simpl. rewrite (sleeps_sleep _ Hsleep).
  unfold Futures.running, Futures.super_running, Futures.set_result.
  rewrite Hstate, Hreply. reflexivity.
Qed.

(** On the future as the constructor leaves it, which nothing moves out of
    [PENDING], [running] answers [None] without asking the service, and
    [_ping_server] returns after its first sleep. *)
Lemma ping_server_pending_returns (status_replies : nat → result json)
    (fuel : nat) (task_id : string) (ping_interval : Q) :
  sleeps ping_interval = true →
  Futures._ping_server status_replies (S fuel) 0
    (Futures.__init__ task_id ping_interval).1 =
    (Futures.Returned, (Futures.__init__ task_id ping_interval).1,
     [Futures.EvSleep ping_interval]).
Proof. intros Hsleep. simpl. by rewrite (sleeps_sleep _ Hsleep). Qed.

(** A service that always fails keeps [_ping_server] polling. *)
Lemma ping_server_keeps_polling (msg : string) (fuel n : nat) (self : Futures.DLHubFuture) :
  sleeps (Futures.ping_interval self) = true →
  Futures._state self = Futures.RUNNING →
  (Futures._ping_server (λ _, Raise (GlobusAPIError msg)) fuel n self).1.1 =
    Futures.StillPolling.
Proof.
  intros Hsleep Hstate. revert n. induction fuel as [|fuel IH]; intros n; [done|].
  simpl. rewrite (sleeps_sleep _ Hsleep).
  unfold Futures.running, Futures.super_running. rewrite Hstate.
  specialize (IH (n + 1)%nat). simpl.
  by destruct (Futures._ping_server _ fuel (n + 1) self) as [[o s] evs].
Qed.

(** ** The description models *)

(** C8: [to_dict] raises a [ValueError] exactly when the input or the output
    descriptor is unset, and returns the mapping exactly when both are set;
    after [set_inputs] and [set_outputs] it succeeds. *)
Theorem to_dict_requires_inputs_and_outputs (year version : string)
    (m : Models.servable_model) (simplify_paths : bool) :
  ((∃ msg, Models.to_dict year version m simplify_paths = Raise (ValueError msg)) ↔
   Models.input m = None ∨ Models.output m = None) ∧
  ((∃ out, Models.to_dict year version m simplify_paths = Ok out) ↔
   is_Some (Models.input m) ∧ is_Some (Models.output m)) ∧
  (∀ it id ish iit ot od osh oit,
     is_ok (Models.to_dict year version
              (Models.set_outputs ot od osh oit (Models.set_inputs it id ish iit m))
              simplify_paths) = true).
Proof.
  split; [|split; [|done]].
  - unfold Models.to_dict. destruct (Models.input m) as [i|], (Models.output m) as [o|].
    + split; [by intros [msg ?]|by intros [?|?]].
    + split; [intros _; by right|intros _; by eexists].
    + split; [intros _; by left|intros _; by eexists].
    + split; [intros _; by left|intros _; by eexists].
  - unfold Models.to_dict. destruct (Models.input m) as [i|], (Models.output m) as [o|].
    + split; [intros _; by split|intros _; by eexists].
    + split; [by intros [out ?]|by intros [_ [? ?]]].
    + split; [by intros [out ?]|by intros [[? ?] _]].
    + split; [by intros [out ?]|by intros [[? ?] _]].
Qed.

(** The scenario of [test_pickle]: no inputs, a [ValueError]; inputs and
    outputs described, the mapping with the class-method shim. *)
Example test_pickle (year version : string) :
  Models.to_dict year version pickle_model false =
    Raise (ValueError "Inputs have not been defined") ∧
  Models.to_dict year version
    (Models.set_inputs "ndarray" "Features for each entry" (Some [None; Some 4%Z]) None
       pickle_model) false =
    Raise (ValueError "Outputs have not been defined") ∧
  (Models.to_dict year version
     (Models.set_outputs "ndarray" "Predicted probabilities of being each iris species"
        (Some [None; Some 3%Z]) None
        (Models.set_inputs "ndarray" "Features for each entry" (Some [None; Some 4%Z]) None
           pickle_model)) false
     ≫= λ out, default (Raise (KeyError "shim"))
                  (Ok <$> Models.at_path out ["servable"; "shim"])) =
    Ok (JStr "python.PythonClassMethodServable").
Proof. repeat split. Qed.

(** The whole mapping of [test_function]. *)
Lemma test_function (year version : string) :
  Models.to_dict year version sqrt_model false = Ok (correct_output year version).
Proof. reflexivity. Qed.

(** The static-method model records the function and the flag it is given. *)
Lemma from_function_pointer_details (f : Models.function_pointer) (autobatch : bool) :
  Models.method_details (Models.from_function_pointer f autobatch) =
    {["module" := JStr (Models.f_module f); "method_name" := JStr (Models.f_name f);
      "autobatch" := JBool autobatch]} ∧
  Models.shim (Models.from_function_pointer f autobatch) =
    "python.PythonStaticMethodServable".
Proof. done. Qed.

(** The setters leave the shim and the method details of a static-method
    model as [from_function_pointer] made them. *)
Lemma static_method_model_details (f : Models.function_pointer) (autobatch : bool)
    (m : Models.servable_model) :
  static_method_model f autobatch m →
  Models.shim m = "python.PythonStaticMethodServable" ∧
  Models.method_details m =
    {["module" := JStr (Models.f_module f); "method_name" := JStr (Models.f_name f);
      "autobatch" := JBool autobatch]}.
Proof. induction 1; simpl; auto. Qed.

(** Every static-method model whose inputs and outputs are described
    serializes to a mapping with the static-method shim, the module and name
    of its function, the flag it was built with, and the two descriptors. *)
Lemma static_method_to_dict (year version : string) (f : Models.function_pointer)
    (autobatch : bool) (m : Models.servable_model) (i o : json) (simplify_paths : bool) :
  static_method_model f autobatch m →
  Models.input m = Some i →
  Models.output m = Some o →
  ∃ out,
    Models.to_dict year version m simplify_paths = Ok out ∧
    Models.at_path out ["servable"; "shim"] =
      Some (JStr "python.PythonStaticMethodServable") ∧
    Models.at_path out ["servable"; "methods"; "run"; "method_details"] =
      Some (JDict {["module" := JStr (Models.f_module f);
                    "method_name" := JStr (Models.f_name f);
                    "autobatch" := JBool autobatch]}) ∧
    Models.at_path out ["servable"; "methods"; "run"; "input"] = Some i ∧
    Models.at_path out ["servable"; "methods"; "run"; "output"] = Some o.
Proof.
  intros Hm Hi Ho.
  destruct (static_method_model_details f autobatch m Hm) as [Hshim Hdetails].
  unfold Models.to_dict. rewrite Hi, Ho, Hshim, Hdetails.
  eexists. split; [reflexivity|]. repeat split.
Qed.

(** C9, as amended: for every static-method model built from [math.sqrt]
    with [autobatch=True], whatever its title, its name and the descriptions
    it gives, once its input is declared a list of float and its output a
    float, [to_dict] returns a mapping whose servable section has the
    static-method shim and whose [run] method has the method details
    [{module: math, method_name: sqrt, autobatch: true}], beside the two
    descriptors. *)
Theorem to_dict_sqrt_static_method (year version : string) (m : Models.servable_model)
    (input_description output_description : string) (simplify_paths : bool) :
  static_method_model Models.math_sqrt true m →
  Models.input m =
    Some (Models.compose_argument_block "list" input_description None (Some "float")) →
  Models.output m =
    Some (Models.compose_argument_block "float" output_description None None) →
  ∃ out,
    Models.to_dict year version m simplify_paths = Ok out ∧
    Models.at_path out ["servable"; "shim"] =
      Some (JStr "python.PythonStaticMethodServable") ∧
    Models.at_path out ["servable"; "methods"; "run"; "method_details"] =
      Some (JDict {["module" := JStr "math"; "method_name" := JStr "sqrt";
                    "autobatch" := JBool true]}) ∧
    Models.at_path out ["servable"; "methods"; "run"; "input"] =
      Some (JDict {["type" := JStr "list"; "description" := JStr input_description;
                    "item_type" := JDict {["type" := JStr "float"]}]}) ∧
    Models.at_path out ["servable"; "methods"; "run"; "output"] =
      Some (JDict {["type" := JStr "float"; "description" := JStr output_description]}).
Proof.
  intros Hm Hi Ho.
  exact (static_method_to_dict year version Models.math_sqrt true m _ _ simplify_paths
           Hm Hi Ho).
Qed.

Lemma to_dict_sqrt_static_method_witness :
  ∃ out,
    Models.to_dict "2019" "0.1" sqrt_model false = Ok out ∧
    Models.at_path out ["servable"; "shim"] =
      Some (JStr "python.PythonStaticMethodServable") ∧
    Models.at_path out ["servable"; "methods"; "run"; "method_details"] =
      Some (JDict {["module" := JStr "math"; "method_name" := JStr "sqrt";
                    "autobatch" := JBool true]}) ∧
    Models.at_path out ["servable"; "methods"; "run"; "input"] =
      Some (JDict {["type" := JStr "list"; "description" := JStr "List of numbers";
                    "item_type" := JDict {["type" := JStr "float"]}]}) ∧
    Models.at_path out ["servable"; "methods"; "run"; "output"] =
      Some (JDict {["type" := JStr "float";
                    "description" := JStr "Square root of the number"]}).
Proof.
  apply (to_dict_sqrt_static_method "2019" "0.1" sqrt_model "List of numbers"
           "Square root of the number" false).
  - repeat constructor.
  - reflexivity.
  - reflexivity.
Defined.

(** C9, as stated, fails: the static-method model that
    [from_function_pointer(math.sqrt)] builds, with the flag left at its
    default and the same input and output types, serializes with
    [autobatch: false] in its method details. *)
Lemma to_dict_sqrt_default_autobatch :
  static_method_model Models.math_sqrt Models.autobatch_default default_sqrt_model ∧
  Models.input default_sqrt_model =
    Some (Models.compose_argument_block "list" "List of numbers" None (Some "float")) ∧
  Models.output default_sqrt_model =
    Some (Models.compose_argument_block "float" "Square root of the number" None None) ∧
  ∃ out,
    Models.to_dict "2019" "0.1" default_sqrt_model false = Ok out ∧
    Models.at_path out ["servable"; "shim"] =
      Some (JStr "python.PythonStaticMethodServable") ∧
    Models.at_path out ["servable"; "methods"; "run"; "method_details"] =
      Some (JDict {["module" := JStr "math"; "method_name" := JStr "sqrt";
                    "autobatch" := JBool false]}) ∧
    Models.at_path out ["servable"; "methods"; "run"; "method_details"] ≠
      Some (JDict {["module" := JStr "math"; "method_name" := JStr "sqrt";
                    "autobatch" := JBool true]}).
Proof.
  split; [repeat constructor|]. split; [reflexivity|]. split; [reflexivity|].
  eexists. split; [reflexivity|]. split; [reflexivity|]. split; [reflexivity|].
  intros Heq.
  assert (Hlook : ∀ d d' : gmap string json,
            Some (JDict d) = Some (JDict d') → d !! "autobatch" = d' !! "autobatch")
    by (by intros ?? [= ->]).
  apply Hlook in Heq. vm_compute in Heq. discriminate.
Qed.

(** * Further properties of the client *)

(** ** The listing of servables, continued *)

(** X2: when the index reports more matches than [SEARCH_LIMIT],
    [get_servables] raises [RuntimeError] whichever versions are asked for,
    and so does [list_servables]. *)
Theorem servables_over_limit (SEARCH_LIMIT : Z)
    (search_helper : query → option Z → result (list doc * query_info))
    (only_latest_version : bool) (w : world) (docs : list doc) (qi : query_info) :
  search_helper servables_query None = Ok (docs, qi) →
  (SEARCH_LIMIT < total_query_matches qi)%Z →
  (get_servables SEARCH_LIMIT search_helper only_latest_version w).1 =
    Raise (RuntimeError too_many_servables_msg) ∧
  (list_servables SEARCH_LIMIT search_helper w).1 =
    Raise (RuntimeError too_many_servables_msg).
Proof.
  intros Hsearch Hlimit.
  unfold list_servables, get_servables, search_with_info. unfold_M.
  rewrite Hsearch. by rewrite (proj2 (Z.ltb_lt _ _) Hlimit).
Qed.

Lemma servables_over_limit_witness :
  (get_servables 3 listing_index false empty_world).1 =
    Raise (RuntimeError too_many_servables_msg) ∧
  (list_servables 3 listing_index empty_world).1 =
    Raise (RuntimeError too_many_servables_msg).
Proof.
  apply (servables_over_limit 3 listing_index false empty_world listing_docs
           (QueryInfo 5)); [reflexivity|]. simpl. lia.
Defined.

Lemma latest_versions_sublist results : ∀ names output,
  ∃ more, latest_versions results names output = output ++ more ∧
          more `sublist_of` results.
Proof.
  induction results as [|r rest IH]; intros names output; simpl.
  - exists []. by rewrite app_nil_r.
  - case_decide.
    + destruct (IH names output) as (more & -> & Hsub). exists more.
      split; [done|]. by apply sublist_cons.
    + destruct (IH ({[shorthand_name (dlhub r)]} ∪ names) (output ++ [r]))
        as (more & -> & Hsub).
      exists (r :: more). rewrite <- app_assoc. split; [done|]. by apply sublist_skip.
Qed.

(** X3: within the search limit, [get_servables(only_latest_version=True)]
    returns the results with some entries removed and the others in their
    order, and [get_servables(only_latest_version=False)] returns the results
    as the index gave them. *)
Theorem get_servables_keeps_order (SEARCH_LIMIT : Z)
    (search_helper : query → option Z → result (list doc * query_info))
    (w : world) (docs : list doc) (qi : query_info) :
  search_helper servables_query None = Ok (docs, qi) →
  (total_query_matches qi ≤ SEARCH_LIMIT)%Z →
  ∃ out, (get_servables SEARCH_LIMIT search_helper true w).1 = Ok out ∧
         out `sublist_of` docs ∧
         (get_servables SEARCH_LIMIT search_helper false w).1 = Ok docs.
Proof.
  intros Hsearch Hlimit.
  destruct (latest_versions_sublist docs ∅ []) as (more & Heq & Hsub).
  exists more. unfold get_servables, search_with_info. unfold_M. rewrite Hsearch.
  rewrite (proj2 (Z.ltb_ge _ _) Hlimit). simpl. by rewrite Heq.
Qed.

Lemma get_servables_keeps_order_witness :
  ∃ out, (get_servables 10000 listing_index true empty_world).1 = Ok out ∧
         out `sublist_of` listing_docs ∧
         (get_servables 10000 listing_index false empty_world).1 = Ok listing_docs.
Proof.
  apply (get_servables_keeps_order 10000 listing_index empty_world listing_docs
           (QueryInfo 5)); [reflexivity|]. simpl. lia.
Defined.

Lemma latest_versions_distinct results : ∀ names output,
  NoDup (shorthand <$> results) →
  (∀ r, r ∈ results → shorthand r ∉ names) →
  latest_versions results names output = output ++ results.
Proof.
  induction results as [|r rest IH]; intros names output Hnd Hnames; simpl.
  - by rewrite app_nil_r.
  - rewrite fmap_cons in Hnd. apply NoDup_cons in Hnd as [Hr Hnd].
    rewrite decide_False by (apply Hnames; set_solver).
    rewrite IH; [by rewrite <- app_assoc|done|].
    intros r' Hr'. rewrite elem_of_union, elem_of_singleton.
    intros [Heq|Hin]; [|by apply (Hnames r'); [set_solver|]].
    apply Hr. unfold shorthand in Heq |- *. rewrite <- Heq.
    apply list_elem_of_fmap. by exists r'.
Qed.

(** X4: when the results already have pairwise distinct shorthand names,
    [get_servables(only_latest_version=True)] returns them unchanged. *)
Theorem get_servables_distinct_unchanged (SEARCH_LIMIT : Z)
    (search_helper : query → option Z → result (list doc * query_info))
    (w : world) (docs : list doc) (qi : query_info) :
  search_helper servables_query None = Ok (docs, qi) →
  (total_query_matches qi ≤ SEARCH_LIMIT)%Z →
  NoDup (shorthand <$> docs) →
  (get_servables SEARCH_LIMIT search_helper true w).1 = Ok docs.
Proof.
  intros Hsearch Hlimit Hnd.
  unfold get_servables, search_with_info. unfold_M. rewrite Hsearch.
  rewrite (proj2 (Z.ltb_ge _ _) Hlimit). simpl.
  by rewrite (latest_versions_distinct docs ∅ []) by (done || set_solver).
Qed.

Lemma get_servables_distinct_unchanged_witness :
  (get_servables 10000 distinct_index true empty_world).1 = Ok distinct_docs.
Proof.
  apply (get_servables_distinct_unchanged 10000 distinct_index empty_world distinct_docs
           (QueryInfo 3)); [reflexivity|simpl; lia|].
  apply (bool_decide_unpack _). vm_compute. exact I.
Defined.

(** Hence the filter of the listing is idempotent: a listing it returned is
    left as it is when filtered again. *)
Lemma latest_versions_idempotent (docs : list doc) :
  latest_versions (latest_versions docs ∅ []) ∅ [] = latest_versions docs ∅ [].
Proof.
  apply (latest_versions_distinct _ ∅ []); [|set_solver].
  apply latest_versions_NoDup; [set_solver|constructor].
Qed.

(** X5: within the search limit, [list_servables] returns every shorthand
    name of the results exactly once, and nothing else. *)
Theorem list_servables_names (SEARCH_LIMIT : Z)
    (search_helper : query → option Z → result (list doc * query_info))
    (w : world) (docs : list doc) (qi : query_info) :
  search_helper servables_query None = Ok (docs, qi) →
  (total_query_matches qi ≤ SEARCH_LIMIT)%Z →
  ∃ names, (list_servables SEARCH_LIMIT search_helper w).1 = Ok names ∧
           NoDup names ∧
           ∀ s, s ∈ names ↔ ∃ d, d ∈ docs ∧ shorthand_name (dlhub d) = s.
Proof.
  intros Hsearch Hlimit.
  exists (shorthand <$> latest_versions docs ∅ []). split; [|split].
  - unfold list_servables, get_servables, search_with_info. unfold_M. rewrite Hsearch.
    by rewrite (proj2 (Z.ltb_ge _ _) Hlimit).
  - apply latest_versions_NoDup; [set_solver|constructor].
  - intros s. rewrite list_elem_of_fmap. split.
    + intros (d & -> & Hd). exists d. split; [|done].
      destruct (latest_versions_prefix docs ∅ []) as (more & Heq & Hin).
      rewrite Heq in Hd. by apply Hin.
    + intros (d & Hd & <-).
      destruct (latest_versions_covers docs ∅ [] d) as (r' & Hr' & Hname);
        [set_solver|done|].
      by exists r'.
Qed.

Lemma list_servables_names_witness :
  ∃ names, (list_servables 10000 listing_index empty_world).1 = Ok names ∧
           NoDup names ∧
           ∀ s, s ∈ names ↔ ∃ d, d ∈ listing_docs ∧ shorthand_name (dlhub d) = s.
Proof.
  apply (list_servables_names 10000 listing_index empty_world listing_docs
           (QueryInfo 5)); [reflexivity|]. simpl. lia.
Defined.

(** ** Running a servable, continued *)

(** X6: an input type other than [python], [json] and [files] makes [run]
    raise [ValueError] with a message naming the type, before any call. *)
Theorem run_unknown_input_type (http_post : string → json → result response)
    (jsonpickle_encode : json → string) (name : string) (inputs : json)
    (input_type : string) (w : world) :
  input_type ≠ "python" → input_type ≠ "json" → input_type ≠ "files" →
  run http_post jsonpickle_encode name inputs input_type w =
    (Raise (ValueError ("Input type not recognized: " +:+ input_type)), w).
Proof.
  intros Hp Hj Hf. unfold run. unfold_M.
  apply String.eqb_neq in Hp, Hj, Hf. by rewrite Hp, Hj, Hf.
Qed.

Lemma run_unknown_input_type_witness :
  run accepting_post (λ _, "") "ann/zeta" (JInt 1) "xml" empty_world =
    (Raise (ValueError "Input type not recognized: xml"), empty_world).
Proof.
  apply (run_unknown_input_type accepting_post (λ _, "") "ann/zeta" (JInt 1) "xml"
           empty_world); discriminate.
Defined.

Lemma run_unfold (http_post : string → json → result response)
    (jsonpickle_encode : json → string) (name : string) (inputs : json)
    (input_type : string) (w : world) :
  input_type = "python" ∨ input_type = "json" →
  run http_post jsonpickle_encode name inputs input_type w =
    (match http_post ("servables/" +:+ name +:+ "/run")
             (run_body jsonpickle_encode input_type inputs) with
     | Ok r => if (http_status r =? 200)%Z then Ok (data r)
               else Raise (Exception (ArgResponse r))
     | Raise e => Raise e
     end,
     log (CallPost ("servables/" +:+ name +:+ "/run")
            (run_body jsonpickle_encode input_type inputs)) w).
Proof.
  intros [-> | ->]; unfold run, post, run_body; unfold_M; simpl.
  all: destruct (http_post _ _) as [r|e]; [|done].
  all: by destruct (http_status r =? 200)%Z.
Qed.

(** X7: for the input types [python] and [json], [run] makes exactly one
    call, a POST of the encoded inputs to [servables/<name>/run]; it returns
    the data of the reply exactly when the reply has status 200, raises an
    [Exception] carrying the reply for any other status, and lets an
    exception of the POST through. *)
Theorem run_posts_once (http_post : string → json → result response)
    (jsonpickle_encode : json → string) (name : string) (inputs : json)
    (input_type : string) (w : world) :
  input_type = "python" ∨ input_type = "json" →
  let path := "servables/" +:+ name +:+ "/run" in
  let body := run_body jsonpickle_encode input_type inputs in
  let res := run http_post jsonpickle_encode name inputs input_type w in
  res.2 = World (calls w ++ [CallPost path body]) (files w) ∧
  (∀ d, res.1 = Ok d ↔
        ∃ r, http_post path body = Ok r ∧ http_status r = 200%Z ∧ data r = d) ∧
  (∀ r, http_post path body = Ok r → http_status r ≠ 200%Z →
        res.1 = Raise (Exception (ArgResponse r))) ∧
  (∀ e, http_post path body = Raise e → res.1 = Raise e).
Proof.
  intros Htype path body res. subst res path body.
  rewrite run_unfold by done. simpl. split; [done|].
  destruct (http_post _ _) as [r|e]; [|split; [|split]].
  - destruct (http_status r =? 200)%Z eqn:Hs.
    + apply Z.eqb_eq in Hs. split; [|split].
      * intros d. split; [intros [= <-]; by exists r|by intros (r' & [= <-] & _ & <-)].
      * by intros r' [= <-] ?.
      * done.
    + apply Z.eqb_neq in Hs. split; [|split].
      * intros d. split; [done|by intros (r' & [= <-] & ? & _)].
      * by intros r' [= <-] ?.
      * done.
  - intros d. split; [done|by intros (r' & ? & _)].
  - done.
  - by intros e' [= <-].
Qed.

Lemma run_posts_once_witness :
  let path := "servables/" +:+ "ann/zeta" +:+ "/run" in
  let body := run_body (λ _, "[1]") "python" (JList [JInt 1]) in
  let res := run refusing_post (λ _, "[1]") "ann/zeta" (JList [JInt 1]) "python"
               empty_world in
  res.2 = World (calls empty_world ++ [CallPost path body]) (files empty_world) ∧
  (∀ d, res.1 = Ok d ↔
        ∃ r, refusing_post path body = Ok r ∧ http_status r = 200%Z ∧ data r = d) ∧
  (∀ r, refusing_post path body = Ok r → http_status r ≠ 200%Z →
        res.1 = Raise (Exception (ArgResponse r))) ∧
  (∀ e, refusing_post path body = Raise e → res.1 = Raise e).
Proof.
  apply (run_posts_once refusing_post (λ _, "[1]") "ann/zeta" (JList [JInt 1]) "python"
           empty_world).
  left. reflexivity.
Defined.

(** ** Publication, continued *)

Section publication.

Variable validate_against_dlhub_schema : json → string → result unit.
Variable zip_filename : string.
Variable authorization_header : result json.
Variable publish_url : string.
Variable requests_post : string → json → json → result response.

(** [publish_servable] is the preparation of the description followed by the
    archive steps, which start without the temporary file. *)
Lemma publish_servable_unfold (model : metadata_model) (w : world) :
  publish_servable validate_against_dlhub_schema zip_filename authorization_header
    publish_url requests_post model w =
    match prepare_metadata validate_against_dlhub_schema model with
    | Raise e => (Raise e, w)
    | Ok metadata =>
        try_finally
          (_ ← get_zip_file model zip_filename;
           headers ← lift authorization_header;
           _ ← open_rb zip_filename;
           reply ← ((λ w, (requests_post publish_url headers metadata,
                           log (CallPublish publish_url headers metadata zip_filename) w))
                    : M response);
           if negb (http_status reply =? 200)%Z
           then raise (Exception (ArgText (text reply)))
           else lift (getitem (data reply) "task_id"))
          (unlink zip_filename)
          (World (calls w) (({[zip_filename]} ∪ files w) ∖ {[zip_filename]}))
    end.
Proof.
  unfold publish_servable, prepare_metadata. unfold_M.
  destruct (to_dict model true) as [metadata|e]; simpl; [|done].
  destruct (getitem metadata "dlhub") as [blk|e]; simpl; [|done].
  destruct (setitem blk "transfer_method" _) as [blk'|e]; simpl; [|done].
  destruct (setitem metadata "dlhub" blk') as [metadata'|e]; simpl; [|done].
  destruct (validate_against_dlhub_schema metadata' "servable") as [[]|e]; simpl; [|done].
  by rewrite unlink_created.
Qed.

(** X8: when the model cannot render its description, the description has no
    [dlhub] block to mark, or the schema validation rejects it,
    [publish_servable] raises that exception and leaves the world as it found
    it: no temporary file is created and nothing is sent. *)
Theorem publish_servable_rejected_untouched (model : metadata_model) (w : world)
    (e : exn) :
  prepare_metadata validate_against_dlhub_schema model = Raise e →
  publish_servable validate_against_dlhub_schema zip_filename authorization_header
    publish_url requests_post model w = (Raise e, w).
Proof. intros Hprep. by rewrite publish_servable_unfold, Hprep. Qed.

Lemma prepare_metadata_marked (model : metadata_model) (metadata : json) :
  prepare_metadata validate_against_dlhub_schema model = Ok metadata →
  validate_against_dlhub_schema metadata "servable" = Ok () ∧
  (getitem metadata "dlhub" ≫= λ blk, getitem blk "transfer_method") =
    Ok (JDict {["POST" := JStr "file"]}).
Proof.
  unfold prepare_metadata. unfold_M.
  destruct (to_dict model true) as [m0|e]; simpl; [|done].
  destruct (getitem m0 "dlhub") as [blk|e] eqn:Hblk; simpl; [|done].
  destruct (setitem blk "transfer_method" _) as [blk'|e] eqn:Hset; simpl; [|done].
  destruct (setitem m0 "dlhub" blk') as [m1|e] eqn:Hset'; simpl; [|done].
  destruct (validate_against_dlhub_schema m1 "servable") as [[]|e] eqn:Hval; simpl; [|done].
  intros [= <-]. split; [done|].
  destruct m0; try done. destruct blk; try done. simpl in *.
  injection Hset as <-. injection Hset' as <-. simpl.
  rewrite lookup_insert_eq. simpl. by rewrite lookup_insert_eq.
Qed.

(** X9: when [publish_servable] returns a task identifier, the description
    that was posted had passed the schema validation with its [dlhub] block
    marked [transfer_method = {POST: file}], the authorization header was
    available, and the reply had status 200 and held that [task_id]. *)
Theorem publish_servable_success (model : metadata_model) (w : world) (task : json) :
  (publish_servable validate_against_dlhub_schema zip_filename authorization_header
     publish_url requests_post model w).1 = Ok task →
  ∃ metadata headers reply,
    prepare_metadata validate_against_dlhub_schema model = Ok metadata ∧
    validate_against_dlhub_schema metadata "servable" = Ok () ∧
    (getitem metadata "dlhub" ≫= λ blk, getitem blk "transfer_method") =
      Ok (JDict {["POST" := JStr "file"]}) ∧
    authorization_header = Ok headers ∧
    requests_post publish_url headers metadata = Ok reply ∧
    http_status reply = 200%Z ∧
    getitem (data reply) "task_id" = Ok task.
Proof.
  rewrite publish_servable_unfold.
  destruct (prepare_metadata _ _) as [metadata|e] eqn:Hprep; [|done].
  intros Hres. apply try_finally_ok in Hres. revert Hres. unfold_M.
  generalize (World (calls w) (({[zip_filename]} ∪ files w) ∖ {[zip_filename]})).
  intros w0 Hres.
  destruct (get_zip_file model zip_filename w0) as [[[]|e1] w1]; [|done].
  destruct authorization_header as [headers|e2] eqn:Hauth; [|done].
  unfold open_rb in Hres. destruct (decide (zip_filename ∈ files w1)); [|done].
  destruct (requests_post publish_url headers metadata) as [reply|e3] eqn:Hpost; [|done].
  simpl in Hres. destruct (http_status reply =? 200)%Z eqn:Hstatus; [|done].
  simpl in Hres. apply prepare_metadata_marked in Hprep as Hmark. destruct Hmark.
  exists metadata, headers, reply. repeat split; try done. by apply Z.eqb_eq.
Qed.

(** X10: when [get_zip_file] leaves no file at the temporary path, whether it
    returns or raises, what escapes [publish_servable] is the
    [FileNotFoundError] of the [os.unlink] in the [finally] clause, which
    replaces any earlier exception; the service is not contacted. *)
Theorem publish_servable_missing_archive (model : metadata_model) (w : world)
    (metadata : json) :
  prepare_metadata validate_against_dlhub_schema model = Ok metadata →
  (∀ w0, zip_filename ∉ files w0 →
         zip_filename ∉ files (get_zip_file model zip_filename w0).2) →
  publish_servable validate_against_dlhub_schema zip_filename authorization_header
    publish_url requests_post model w =
    (Raise (FileNotFoundError zip_filename),
     (get_zip_file model zip_filename
        (World (calls w) (({[zip_filename]} ∪ files w) ∖ {[zip_filename]}))).2).
Proof.
  intros Hprep Hzip. rewrite publish_servable_unfold, Hprep.
  set (w0 := World (calls w) (({[zip_filename]} ∪ files w) ∖ {[zip_filename]})).
  assert (zip_filename ∉ files (get_zip_file model zip_filename w0).2)
    as Habsent by (apply Hzip; subst w0; simpl; set_solver).
  clearbody w0. clear Hzip. unfold try_finally. unfold_M.
  destruct (get_zip_file model zip_filename w0) as [[[]|e1] w1]; simpl in *.
  - destruct authorization_header as [headers|e2].
    + unfold open_rb, unlink. by rewrite !decide_False.
    + unfold unlink. by rewrite decide_False.
  - unfold unlink. by rewrite decide_False.
Qed.

End publication.

Lemma publish_servable_rejected_untouched_witness :
  publish_servable rejecting_validator "/tmp/tmpab12.zip" (Ok (JDict ∅))
    "https://dlhub.org/api/publish" accepting_service sample_model empty_world =
    (Raise (ValueError "schema"), empty_world).
Proof.
  apply (publish_servable_rejected_untouched rejecting_validator "/tmp/tmpab12.zip"
           (Ok (JDict ∅)) "https://dlhub.org/api/publish" accepting_service
           sample_model empty_world (ValueError "schema")).
  reflexivity.
Defined.

Lemma publish_servable_success_witness :
  ∃ metadata headers reply,
    prepare_metadata (λ _ _, Ok ()) sample_model = Ok metadata ∧
    (λ _ _, Ok ()) metadata "servable" = Ok () ∧
    (getitem metadata "dlhub" ≫= λ blk, getitem blk "transfer_method") =
      Ok (JDict {["POST" := JStr "file"]}) ∧
    Ok (JDict ∅) = Ok headers ∧
    accepting_service "https://dlhub.org/api/publish" headers metadata = Ok reply ∧
    http_status reply = 200%Z ∧
    getitem (data reply) "task_id" = Ok (JStr "task-1").
Proof.
  apply (publish_servable_success (λ _ _, Ok ()) "/tmp/tmpab12.zip" (Ok (JDict ∅))
           "https://dlhub.org/api/publish" accepting_service sample_model empty_world
           (JStr "task-1")).
  vm_compute. reflexivity.
Defined.

Lemma publish_servable_missing_archive_witness :
  publish_servable (λ _ _, Ok ()) "/tmp/tmpab12.zip" (Ok (JDict ∅))
    "https://dlhub.org/api/publish" accepting_service archiveless_model empty_world =
    (Raise (FileNotFoundError "/tmp/tmpab12.zip"),
     (get_zip_file archiveless_model "/tmp/tmpab12.zip"
        (World (calls empty_world)
           (({["/tmp/tmpab12.zip"]} ∪ files empty_world) ∖ {["/tmp/tmpab12.zip"]}))).2).
Proof.
  apply (publish_servable_missing_archive (λ _ _, Ok ()) "/tmp/tmpab12.zip"
           (Ok (JDict ∅)) "https://dlhub.org/api/publish" accepting_service
           archiveless_model empty_world
           (JDict {["dlhub" := JDict {["transfer_method" := JDict {["POST" := JStr "file"]}]}]})).
  - reflexivity.
  - intros w0 Hw0. exact Hw0.
Defined.

(** X11: [publish_repository] makes exactly one call, a POST of the
    repository to [publish_repo], and never looks at the status of the reply:
    whatever the status, it returns the [task_id] of the reply body, and
    raises [KeyError] when the body has none. *)
Theorem publish_repository_ignores_status (http_post : string → json → result response)
    (repository : string) (w : world) (r : response) (d : gmap string json) :
  http_post "publish_repo" (JDict {["repository" := JStr repository]}) = Ok r →
  data r = JDict d →
  publish_repository http_post repository w =
    (match d !! "task_id" with
     | Some task => Ok task
     | None => Raise (KeyError "task_id")
     end,
     World (calls w ++ [CallPost "publish_repo" (JDict {["repository" := JStr repository]})])
       (files w)).
Proof.
  intros Hpost Hdata. unfold publish_repository, post. unfold_M.
  rewrite Hpost. simpl. by rewrite Hdata.
Qed.

Lemma publish_repository_ignores_status_witness :
  publish_repository refusing_post "https://github.com/ann/zeta" empty_world =
    (match ({["task_id" := JStr "task-1"]} : gmap string json) !! "task_id" with
     | Some task => Ok task
     | None => Raise (KeyError "task_id")
     end,
     World (calls empty_world ++
              [CallPost "publish_repo"
                 (JDict {["repository" := JStr "https://github.com/ann/zeta"]})])
       (files empty_world)).
Proof.
  apply (publish_repository_ignores_status refusing_post "https://github.com/ann/zeta"
           empty_world
           (Response 500 (JDict {["task_id" := JStr "task-1"]}) "Internal Server Error"));
    reflexivity.
Defined.

(** ** Searching by servable, continued *)

Lemma dict_get_set {V} (d : pydict V) (k : string) (v default : V) :
  dict_get (dict_set d k v) k default = v.
Proof.
  induction d as [|[k' v'] d IH]; simpl.
  - by rewrite decide_True.
  - case_decide as Heq; simpl; [by rewrite decide_True|]. by rewrite decide_False.
Qed.

(** The filter loop on documents, started without the literal key: it raises
    when it meets a stored document under that key, and otherwise files every
    document whose date exceeds the default. *)
Lemma latest_loop_spec (docs : list doc) : ∀ acc : pydict doc,
  "ident" ∉ acc.*1 →
  latest_loop (PDoc <$> docs) (prod_map id PDoc <$> acc) =
    if meets_ident docs then Raise (TypeError dict_int_lt_msg)
    else Ok (prod_map id PDoc <$> foldl file_doc acc docs).
Proof.
  induction docs as [|d docs IH]; intros acc Hacc; csimpl; [done|].
  rewrite dict_get_absent by (by rewrite fmap_values_keys). simpl.
  change (owner (dlhub d) +:+ name (dlhub d)) with (ident d).
  unfold file_doc at 2.
  destruct (-1 <? publication_date (dlhub d))%Z eqn:Hdate.
  - rewrite andb_true_r, dict_set_fmap. fold (keep acc d).
    case_bool_decide as Hkey; simpl.
    + destruct docs as [|d' docs]; [done|]. rewrite bool_decide_false by done.
      csimpl. unfold keep. rewrite <- dict_set_fmap, Hkey, dict_get_set. done.
    + apply IH. unfold keep. rewrite dict_set_keys. naive_solver.
  - rewrite andb_false_r. by apply IH.
Qed.

Lemma meets_ident_spec (docs : list doc) :
  meets_ident docs = true ↔
  ∃ before d after, docs = before ++ d :: after ∧ ident d = "ident" ∧
                    (-1 < publication_date (dlhub d))%Z ∧ after ≠ [].
Proof.
  induction docs as [|x docs IH]; simpl.
  - split; [done|]. intros (before & d & after & Heq & _). by destruct before.
  - destruct (bool_decide (ident x = "ident") && (-1 <? publication_date (dlhub x))%Z)
      eqn:Hx.
    + apply andb_true_iff in Hx as [Hk Hd].
      apply bool_decide_eq_true in Hk. apply Z.ltb_lt in Hd.
      rewrite negb_true_iff, bool_decide_eq_false. split.
      * intros Hne. by exists [], x, docs.
      * intros (before & d & after & Heq & _ & _ & Hne).
        destruct before as [|y before]; simplify_eq/=; [done|]. by destruct before.
    + rewrite IH. split.
      * intros (before & d & after & -> & ?). by exists (x :: before), d, after.
      * intros (before & d & after & Heq & Hk & Hd & Hne).
        destruct before as [|y before]; simplify_eq/=.
        -- rewrite bool_decide_true in Hx by done.
           by rewrite (proj2 (Z.ltb_lt _ _) Hd) in Hx.
        -- by exists before, d, after.
Qed.

Lemma meets_ident_absent (docs : list doc) :
  Forall (λ d, ident d ≠ "ident") docs → meets_ident docs = false.
Proof.
  induction 1 as [|d docs Hd _ IH]; simpl; [done|].
  by rewrite bool_decide_false.
Qed.

Lemma foldl_file_doc (docs : list doc) : ∀ acc,
  foldl file_doc acc docs =
    foldl keep acc (filter (λ d, (-1 < publication_date (dlhub d))%Z) docs).
Proof.
  induction docs as [|d docs IH]; intros acc; simpl; [done|].
  unfold file_doc at 2. rewrite filter_cons.
  destruct (-1 <? publication_date (dlhub d))%Z eqn:Hdate.
  - apply Z.ltb_lt in Hdate. rewrite decide_True by done. simpl. apply IH.
  - apply Z.ltb_ge in Hdate. rewrite decide_False by lia. apply IH.
Qed.

Section searching.

Variable search_helper : query → option Z → result (list doc * query_info).

Lemma search_by_servable_filter (servable_name owner : option string)
    (version : option Z) (limit : option Z) (docs : list doc) (qi : query_info)
    (w : world) :
  truthy_str servable_name || truthy_str owner || truthy_int version = true →
  search_helper [match_servable servable_name owner version] limit = Ok (docs, qi) →
  (search_by_servable search_helper servable_name owner version true limit false w).1 =
    if meets_ident docs then Raise (TypeError dict_int_lt_msg)
    else Ok (ResultList (PDoc <$> dict_values (foldl file_doc [] docs))).
Proof.
  intros Hgiven Hsearch.
  pose proof (latest_loop_spec docs []) as Hloop. csimpl in Hloop.
  specialize (Hloop ltac:(set_solver)).
  unfold search_by_servable.
  destruct (truthy_str servable_name), (truthy_str owner), (truthy_int version);
    try done; simpl.
  all: unfold search, search_plain; unfold_M; rewrite Hsearch; simpl.
  all: rewrite Hloop; destruct (meets_ident docs); simpl; [done|].
  all: by rewrite fmap_values_values.
Qed.

(** X12: with [only_latest=False] and one of the three arguments given,
    [search_by_servable] is the search itself: its result, an exception
    included, and its one call are those of the search, and with [info=True]
    the pair of the results and the query information comes back whole. *)
Theorem search_by_servable_all_versions (servable_name owner : option string)
    (version : option Z) (limit : option Z) (info : bool) (w : world) :
  truthy_str servable_name || truthy_str owner || truthy_int version = true →
  search_by_servable search_helper servable_name owner version false limit info w =
    search search_helper [match_servable servable_name owner version] limit info w.
Proof.
  intros Hgiven. unfold search_by_servable.
  destruct (truthy_str servable_name), (truthy_str owner), (truthy_int version);
    try done; simpl.
  all: unfold_M; by destruct (search _ _ _ _ _) as [[r|e] w'].
Qed.

(** X13: with [only_latest=True] and [info=False], once the search has
    returned, the only exception [search_by_servable] raises is the
    [TypeError] of comparing a document with an integer, and it raises it
    exactly when a document whose owner-plus-name key is the literal
    ["ident"] and whose publication date exceeds -1 is followed by another
    document. *)
Theorem search_by_servable_raises_iff (servable_name owner : option string)
    (version : option Z) (limit : option Z) (docs : list doc) (qi : query_info)
    (w : world) :
  truthy_str servable_name || truthy_str owner || truthy_int version = true →
  search_helper [match_servable servable_name owner version] limit = Ok (docs, qi) →
  let res := search_by_servable search_helper servable_name owner version
               true limit false w in
  (res.1 = Raise (TypeError dict_int_lt_msg) ↔
   ∃ before d after, docs = before ++ d :: after ∧ ident d = "ident" ∧
                     (-1 < publication_date (dlhub d))%Z ∧ after ≠ []) ∧
  (is_ok res.1 = true ∨ res.1 = Raise (TypeError dict_int_lt_msg)).
Proof.
  intros Hgiven Hsearch res. subst res.
  rewrite (search_by_servable_filter _ _ _ _ docs qi) by done.
  rewrite <- meets_ident_spec.
  destruct (meets_ident docs); split; try done; [by right|by left].
Qed.

(** X14: with [only_latest=True] and [info=False], when no document has the
    literal key, the documents whose publication date is -1 or less are
    dropped, and of the others exactly the last under each owner-plus-name key
    is returned. *)
Theorem search_by_servable_drops_old_dates (servable_name owner : option string)
    (version : option Z) (limit : option Z) (docs : list doc) (qi : query_info)
    (w : world) :
  truthy_str servable_name || truthy_str owner || truthy_int version = true →
  search_helper [match_servable servable_name owner version] limit = Ok (docs, qi) →
  Forall (λ d, ident d ≠ "ident") docs →
  ∃ kept,
    (search_by_servable search_helper servable_name owner version true limit false w).1 =
      Ok (ResultList (PDoc <$> kept)) ∧
    NoDup (ident <$> kept) ∧
    ∀ d, d ∈ kept ↔
         last_of_its_key (filter (λ d, (-1 < publication_date (dlhub d))%Z) docs) d.
Proof.
  intros Hgiven Hsearch Hkeys.
  set (dated := filter (λ d, (-1 < publication_date (dlhub d))%Z) docs).
  destruct (keep_all_spec dated) as (Hnd & Hkey & Hlast).
  exists (dict_values (foldl keep [] dated)). split; [|split; [|done]].
  - rewrite (search_by_servable_filter _ _ _ _ docs qi) by done.
    by rewrite meets_ident_absent, foldl_file_doc.
  - by rewrite keys_of_values.
Qed.

End searching.

Lemma search_by_servable_all_versions_witness :
  search_by_servable version_index (Some "zeta") None None false None true empty_world =
    search version_index [match_servable (Some "zeta") None None] None true empty_world.
Proof.
  apply (search_by_servable_all_versions version_index (Some "zeta") None None None true
           empty_world).
  reflexivity.
Defined.

Lemma search_by_servable_raises_iff_witness :
  let res := search_by_servable ident_index (Some "ent") (Some "id") None
               true None false empty_world in
  (res.1 = Raise (TypeError dict_int_lt_msg) ↔
   ∃ before d after, ident_docs = before ++ d :: after ∧ ident d = "ident" ∧
                     (-1 < publication_date (dlhub d))%Z ∧ after ≠ []) ∧
  (is_ok res.1 = true ∨ res.1 = Raise (TypeError dict_int_lt_msg)).
Proof.
  apply (search_by_servable_raises_iff ident_index (Some "ent") (Some "id") None None
           ident_docs (QueryInfo 2) empty_world); reflexivity.
Defined.

Lemma search_by_servable_drops_old_dates_witness :
  ∃ kept,
    (search_by_servable dated_index (Some "zeta") None None true None false
       empty_world).1 = Ok (ResultList (PDoc <$> kept)) ∧
    NoDup (ident <$> kept) ∧
    ∀ d, d ∈ kept ↔
         last_of_its_key
           (filter (λ d, (-1 < publication_date (dlhub d))%Z) dated_docs) d.
Proof.
  apply (search_by_servable_drops_old_dates dated_index (Some "zeta") None None None
           dated_docs (QueryInfo 4) empty_world); [reflexivity..|].
  apply (bool_decide_unpack _). vm_compute. exact I.
Defined.

(** ** The initializer of the client *)

(** X16: a client built from a given authorizer and a given search client,
    without a forced login, does not log in and never stores the search
    client, so reading its [query] property raises [AttributeError]; in every
    other case the client logs in and queries through the search client of
    the login, not through the one it was given. *)
Theorem client_init_search_client {A S} (auth_res : A * S) (a : A) (s : S)
    (dlh_authorizer : option A) (search_client : option S) (force_login : bool) :
  query_helper (client_init auth_res (Some a) (Some s) false) =
    Raise (AttributeError no_search_client_msg) ∧
  logged_in (client_init auth_res (Some a) (Some s) false) = false ∧
  query_helper (client_init auth_res None search_client force_login) = Ok auth_res.2 ∧
  query_helper (client_init auth_res dlh_authorizer None force_login) = Ok auth_res.2 ∧
  query_helper (client_init auth_res dlh_authorizer search_client true) = Ok auth_res.2.
Proof.
  unfold client_init, init_logs_in. repeat split.
  - by destruct force_login.
  - destruct force_login; [done|]. simpl. by rewrite orb_true_r.
Qed.

(** * Further properties of the polling future *)

Section polling_properties.

Variable status_replies : nat → result json.

Lemma running_keeps_polling (self : Futures.DLHubFuture) (n : nat) :
  Futures._state self = Futures.RUNNING →
  keeps_polling (status_replies n) = true →
  (∃ msg, Futures.running status_replies self n =
            (Raise (GlobusAPIError msg), self,
             [Futures.EvGetTaskStatus (Futures.task_id self)])) ∨
  Futures.running status_replies self n =
    (Ok (Some true), self, [Futures.EvGetTaskStatus (Futures.task_id self)]).
Proof.
  intros Hstate Hreply. unfold Futures.running, Futures.super_running. rewrite Hstate.
  unfold keeps_polling in Hreply.
  destruct (status_replies n) as [status|e].
  - destruct (getitem status "task") as [task|e]; [|done].
    apply negb_true_iff in Hreply. rewrite Hreply. by right.
  - destruct e; try done. left. by eexists.
Qed.

(** One round of polling that does not end the loop. *)
Lemma ping_server_round (fuel n : nat) (self : Futures.DLHubFuture) :
  sleeps (Futures.ping_interval self) = true →
  Futures._state self = Futures.RUNNING →
  keeps_polling (status_replies n) = true →
  Futures._ping_server status_replies (S fuel) n self =
    let '(o, self', evs) := Futures._ping_server status_replies fuel (n + 1)%nat self in
    (o, self', rounds self 1 ++ evs).
Proof.
  intros Hsleep Hstate Hreply. simpl. rewrite (sleeps_sleep _ Hsleep).
  destruct (running_keeps_polling self n Hstate Hreply) as [[msg ->]| ->]; simpl.
  all: by destruct (Futures._ping_server _ fuel (n + 1) self) as [[o s] evs].
Qed.

(** X17: on a future that is not in the [RUNNING] state and whose ping
    interval is a length the sleep takes, [_ping_server] returns after its
    first sleep: [running] answers [None] without asking the service, and
    the future is left as it was. *)
Theorem ping_server_not_running (fuel n : nat) (self : Futures.DLHubFuture) :
  sleeps (Futures.ping_interval self) = true →
  Futures._state self ≠ Futures.RUNNING →
  Futures.running status_replies self n = (Ok None, self, []) ∧
  Futures._ping_server status_replies (S fuel) n self =
    (Futures.Returned, self, [Futures.EvSleep (Futures.ping_interval self)]).
Proof.
  intros Hsleep Hstate. simpl. rewrite (sleeps_sleep _ Hsleep).
  unfold Futures.running, Futures.super_running.
  by destruct (Futures._state self).
Qed.

(** X18: on a [RUNNING] future whose ping interval is a length the sleep
    takes, when the service answers [k] status requests with an error of its
    own or a task that is not completed, and the next one with a completed
    task and its result, [_ping_server] makes [k + 1] rounds of a sleep and a
    request, sets that result on the future and returns. *)
Theorem ping_server_polls_until_completed (k : nat) : ∀ (fuel n : nat)
    (self : Futures.DLHubFuture) (status v : json),
  sleeps (Futures.ping_interval self) = true →
  Futures._state self = Futures.RUNNING →
  (∀ i, (i < k)%nat → keeps_polling (status_replies (n + i)%nat) = true) →
  status_replies (n + k)%nat = Ok status →
  getitem status "task" = Ok (JStr "COMPLETED") →
  getitem status "result" = Ok v →
  (k < fuel)%nat →
  Futures._ping_server status_replies fuel n self =
    (Futures.Returned, finished self v, rounds self (S k)).
Proof.
  induction k as [|k IH];
    intros fuel n self status v Hsleep Hstate Hpoll Hreply Htask Hresult Hfuel.
  - destruct fuel as [|fuel]; [lia|]. rewrite Nat.add_0_r in Hreply. simpl.
    rewrite (sleeps_sleep _ Hsleep).
    unfold Futures.running, Futures.super_running, Futures.set_result.
    by rewrite Hstate, Hreply, Htask, Hresult.
  - destruct fuel as [|fuel]; [lia|].
    rewrite ping_server_round; [|done|done|].
    2: { specialize (Hpoll 0%nat). rewrite Nat.add_0_r in Hpoll. apply Hpoll. lia. }
    rewrite (IH fuel (n + 1)%nat self status v); try done;
      [|by replace (n + 1 + k)%nat with (n + S k)%nat by lia|lia].
    intros i Hi. replace (n + 1 + i)%nat with (n + S i)%nat by lia. apply Hpoll. lia.
Qed.

(** X19: on a [RUNNING] future whose ping interval is a length the sleep
    takes, as long as the service answers with errors of its own or tasks
    that are not completed, [_ping_server] goes on polling: however many
    rounds are observed, it has neither returned nor died, and the future is
    unchanged. *)
Theorem ping_server_never_gives_up (fuel : nat) : ∀ (n : nat) (self : Futures.DLHubFuture),
  sleeps (Futures.ping_interval self) = true →
  Futures._state self = Futures.RUNNING →
  (∀ i, keeps_polling (status_replies i) = true) →
  Futures._ping_server status_replies fuel n self =
    (Futures.StillPolling, self, rounds self fuel).
Proof.
  induction fuel as [|fuel IH]; intros n self Hsleep Hstate Hpoll; [done|].
  rewrite ping_server_round by done. by rewrite IH.
Qed.

(** X20: on a [RUNNING] future whose ping interval is a length the sleep
    takes, a status document without the key [task], or one that reports a
    completed task without the key [result], ends the polling thread with a
    [KeyError] after that request; the future gets neither a result nor an
    exception. *)
Theorem ping_server_missing_key (fuel n : nat) (self : Futures.DLHubFuture)
    (d : gmap string json) :
  sleeps (Futures.ping_interval self) = true →
  Futures._state self = Futures.RUNNING →
  status_replies n = Ok (JDict d) →
  (d !! "task" = None →
   Futures._ping_server status_replies (S fuel) n self =
     (Futures.Died (KeyError "task"), self, rounds self 1)) ∧
  (d !! "task" = Some (JStr "COMPLETED") → d !! "result" = None →
   Futures._ping_server status_replies (S fuel) n self =
     (Futures.Died (KeyError "result"), self, rounds self 1)).
Proof.
  intros Hsleep Hstate Hreply. split.
  - intros Htask. simpl. rewrite (sleeps_sleep _ Hsleep).
    unfold Futures.running, Futures.super_running.
    rewrite Hstate, Hreply. simpl. by rewrite Htask.
  - intros Htask Hresult. simpl. rewrite (sleeps_sleep _ Hsleep).
    unfold Futures.running, Futures.super_running.
    rewrite Hstate, Hreply. simpl. rewrite Htask. simpl. by rewrite Hresult.
Qed.

(** X21: whatever the service answers and however long it is observed,
    [_ping_server] leaves the future as it was or finished with the result of
    a status that reported a completed task, in which case the thread has
    returned; and all it does besides is sleep for the ping interval of the
    future and ask for the status of its task. *)
Theorem ping_server_only_sets_reported_result (fuel : nat) : ∀ (n : nat)
    (self : Futures.DLHubFuture),
  let res := Futures._ping_server status_replies fuel n self in
  (res.1.2 = self ∨
   ∃ i status v,
     status_replies i = Ok status ∧
     getitem status "task" = Ok (JStr "COMPLETED") ∧
     getitem status "result" = Ok v ∧
     res.1.2 = finished self v ∧
     res.1.1 = Futures.Returned) ∧
  Forall (λ e, e = Futures.EvSleep (Futures.ping_interval self) ∨
               e = Futures.EvGetTaskStatus (Futures.task_id self)) res.2.
Proof.
  induction fuel as [|fuel IH]; intros n self; simpl; [by split; [left|]|].
  destruct (Futures.sleep (Futures.ping_interval self)) as [[]|e]; simpl;
    [|split; [by left|]; repeat constructor; by auto].
  unfold Futures.running, Futures.super_running, Futures.set_result.
  assert (∀ m, let res := Futures._ping_server status_replies fuel m self in
    (res.1.2 = self ∨
     ∃ i status v, status_replies i = Ok status ∧
       getitem status "task" = Ok (JStr "COMPLETED") ∧
       getitem status "result" = Ok v ∧ res.1.2 = finished self v ∧
       res.1.1 = Futures.Returned) ∧
    Forall (λ e, e = Futures.EvSleep (Futures.ping_interval self) ∨
                 e = Futures.EvGetTaskStatus (Futures.task_id self))
      (Futures.EvSleep (Futures.ping_interval self)
       :: [Futures.EvGetTaskStatus (Futures.task_id self)] ++ res.2)) as Hnext.
  { intros m. destruct (IH m self) as [Hfut Hevs]. split; [done|].
    repeat (apply Forall_cons; split; [by auto|]). done. }
  destruct (Futures._state self) eqn:Hstate; simpl;
    try (split; [by left|]; repeat constructor; by auto).
  destruct (status_replies n) as [status|e] eqn:Hreply; simpl.
  - destruct (getitem status "task") as [task|e] eqn:Htask; simpl.
    + destruct (Futures.is_completed task) eqn:Hdone; simpl.
      * destruct (getitem status "result") as [v|e] eqn:Hresult; simpl.
        -- split; [|repeat constructor; by auto].
           right. exists n, status, v. repeat split; try done.
           destruct task; try done. simpl in Hdone.
           apply String.eqb_eq in Hdone. by subst.
        -- destruct e; simpl;
             try (split; [by left|]; repeat constructor; by auto).
           specialize (Hnext (n + 1)%nat).
           by destruct (Futures._ping_server _ fuel (n + 1) self) as [[o s] evs].
      * specialize (Hnext (n + 1)%nat).
        by destruct (Futures._ping_server _ fuel (n + 1) self) as [[o s] evs].
    + destruct e; simpl;
        try (split; [by left|]; repeat constructor; by auto).
      specialize (Hnext (n + 1)%nat).
      by destruct (Futures._ping_server _ fuel (n + 1) self) as [[o s] evs].
  - destruct e; simpl;
      try (split; [by left|]; repeat constructor; by auto).
    specialize (Hnext (n + 1)%nat).
    by destruct (Futures._ping_server _ fuel (n + 1) self) as [[o s] evs].
Qed.

(** X22: [stop] on a pending or running future finishes it with the
    exception [Cancelled by user] and keeps its result slot; when the ping
    interval is a length the sleep takes, a polling thread that wakes up
    afterwards returns at once, without a request to the service. *)
Theorem stop_ends_polling (fuel n : nat) (self : Futures.DLHubFuture) :
  sleeps (Futures.ping_interval self) = true →
  Futures._state self = Futures.RUNNING ∨ Futures._state self = Futures.PENDING →
  ∃ self',
    Futures.stop self = Ok self' ∧
    Futures._state self' = Futures.FINISHED ∧
    Futures._exception self' = Some (Exception (ArgText "Cancelled by user")) ∧
    Futures._result self' = Futures._result self ∧
    Futures.running status_replies self' n = (Ok None, self', []) ∧
    Futures._ping_server status_replies (S fuel) n self' =
      (Futures.Returned, self', [Futures.EvSleep (Futures.ping_interval self)]).
Proof.
  intros Hsleep Hstate. unfold Futures.stop, Futures.set_exception.
  destruct Hstate as [-> | ->]; eexists; repeat split;
    simpl; by rewrite (sleeps_sleep _ Hsleep).
Qed.

End polling_properties.

Lemma ping_server_not_running_witness :
  Futures.running slow_service (Futures.__init__ "task-1" (Qmake 1 2)).1 0 =
    (Ok None, (Futures.__init__ "task-1" (Qmake 1 2)).1, []) ∧
  Futures._ping_server slow_service 5 0 (Futures.__init__ "task-1" (Qmake 1 2)).1 =
    (Futures.Returned, (Futures.__init__ "task-1" (Qmake 1 2)).1,
     [Futures.EvSleep (Qmake 1 2)]).
Proof.
  apply (ping_server_not_running slow_service 4 0
           (Futures.__init__ "task-1" (Qmake 1 2)).1).
  - reflexivity.
  - discriminate.
Defined.

Lemma ping_server_polls_until_completed_witness :
  Futures._ping_server slow_service 5 0 polled_future =
    (Futures.Returned, finished polled_future (JInt 42), rounds polled_future 3).
Proof.
  apply (ping_server_polls_until_completed slow_service 2 5 0 polled_future
           (completed (JInt 42)) (JInt 42)).
  - reflexivity.
  - reflexivity.
  - intros i Hi. destruct i as [|[|i]]; [reflexivity|reflexivity|lia].
  - reflexivity.
  - reflexivity.
  - reflexivity.
  - lia.
Defined.

Lemma ping_server_never_gives_up_witness :
  Futures._ping_server failing_status 7 0 polled_future =
    (Futures.StillPolling, polled_future, rounds polled_future 7).
Proof.
  apply (ping_server_never_gives_up failing_status 7 0 polled_future).
  - reflexivity.
  - reflexivity.
  - intros i. reflexivity.
Defined.

Lemma ping_server_missing_key_witness :
  Futures._ping_server (λ _, Ok (JDict {["status" := JStr "COMPLETED"]})) 3 0
    polled_future =
    (Futures.Died (KeyError "task"), polled_future, rounds polled_future 1) ∧
  Futures._ping_server (λ _, Ok (JDict {["task" := JStr "COMPLETED"]})) 3 0
    polled_future =
    (Futures.Died (KeyError "result"), polled_future, rounds polled_future 1).
Proof.
  split.
  - exact (proj1 (ping_server_missing_key
                    (λ _, Ok (JDict {["status" := JStr "COMPLETED"]})) 2 0 polled_future
                    {["status" := JStr "COMPLETED"]} eq_refl eq_refl eq_refl) eq_refl).
  - exact (proj2 (ping_server_missing_key
                    (λ _, Ok (JDict {["task" := JStr "COMPLETED"]})) 2 0 polled_future
                    {["task" := JStr "COMPLETED"]} eq_refl eq_refl eq_refl) eq_refl eq_refl).
Defined.

Lemma stop_ends_polling_witness :
  ∃ self',
    Futures.stop polled_future = Ok self' ∧
    Futures._state self' = Futures.FINISHED ∧
    Futures._exception self' = Some (Exception (ArgText "Cancelled by user")) ∧
    Futures._result self' = Futures._result polled_future ∧
    Futures.running slow_service self' 0 = (Ok None, self', []) ∧
    Futures._ping_server slow_service 4 0 self' =
      (Futures.Returned, self', [Futures.EvSleep (Futures.ping_interval polled_future)]).
Proof.
  apply (stop_ends_polling slow_service 3 0 polled_future); [reflexivity|].
  left. reflexivity.
Defined.

(** * Properties of the Keras model *)

Lemma set_servable_frame (output : gmap string json) (servable : gmap string json)
    (k : string) (v : json) :
  output !! "servable" = Some (JDict servable) →
  Keras.set_servable (JDict output) k v =
    Ok (JDict (<["servable" := JDict (<[k := v]> servable)]> output)).
Proof. intros Hs. unfold Keras.set_servable. simpl. by rewrite Hs. Qed.

(** X23: when the parent class returns a description with a [servable]
    section, [KerasModel.to_dict] returns it with that section's [type],
    [model_type] and [model_summary] set to [Keras Model], [Deep NN] and the
    captured summary; every other key of the section and every other section
    is as the parent left it. *)
Theorem keras_to_dict_frame (super_to_dict : bool → result json) (summary : string)
    (simplify_paths : bool) (output servable : gmap string json) :
  super_to_dict simplify_paths = Ok (JDict output) →
  output !! "servable" = Some (JDict servable) →
  ∃ output' servable',
    Keras.to_dict super_to_dict summary simplify_paths = Ok (JDict output') ∧
    output' !! "servable" = Some (JDict servable') ∧
    (∀ k, k ≠ "servable" → output' !! k = output !! k) ∧
    servable' !! "type" = Some (JStr "Keras Model") ∧
    servable' !! "model_type" = Some (JStr "Deep NN") ∧
    servable' !! "model_summary" = Some (JStr summary) ∧
    (∀ k, k ≠ "type" → k ≠ "model_type" → k ≠ "model_summary" →
          servable' !! k = servable !! k).
Proof.
  intros Hsuper Hservable. unfold Keras.to_dict. rewrite Hsuper.
  unfold mbind at 1, result_bind at 1.
  rewrite (set_servable_frame output servable) by done.
  unfold mbind at 1, result_bind at 1.
  rewrite (set_servable_frame _ (<["type" := JStr "Keras Model"]> servable))
    by apply lookup_insert_eq.
  unfold mbind at 1, result_bind at 1.
  rewrite (set_servable_frame _
             (<["model_type" := JStr "Deep NN"]> (<["type" := JStr "Keras Model"]> servable)))
    by apply lookup_insert_eq.
  unfold mbind, result_bind, mret, result_ret.
  eexists _, _. split; [done|]. split; [apply lookup_insert_eq|].
  split; [|split; [|split; [|split]]].
  - intros k Hk. by rewrite !lookup_insert_ne by done.
  - do 2 rewrite lookup_insert_ne by done. apply lookup_insert_eq.
  - rewrite lookup_insert_ne by done. apply lookup_insert_eq.
  - apply lookup_insert_eq.
  - intros k ? ? ?. by rewrite !lookup_insert_ne by done.
Qed.

Lemma keras_to_dict_frame_witness :
  ∃ output' servable',
    Keras.to_dict (λ _, Ok (JDict parent_output)) "Layer (type)" true =
      Ok (JDict output') ∧
    output' !! "servable" = Some (JDict servable') ∧
    (∀ k, k ≠ "servable" → output' !! k = parent_output !! k) ∧
    servable' !! "type" = Some (JStr "Keras Model") ∧
    servable' !! "model_type" = Some (JStr "Deep NN") ∧
    servable' !! "model_summary" = Some (JStr "Layer (type)") ∧
    (∀ k, k ≠ "type" → k ≠ "model_type" → k ≠ "model_summary" →
          servable' !! k =
            ({["type" := JStr "Python class method";
               "shim" := JStr "keras.KerasServable"]} : gmap string json) !! k).
Proof.
  apply (keras_to_dict_frame (λ _, Ok (JDict parent_output)) "Layer (type)" true
           parent_output
           {["type" := JStr "Python class method"; "shim" := JStr "keras.KerasServable"]});
    reflexivity.
Defined.

(** X24: when the description of the parent class has no [servable] section,
    [KerasModel.to_dict] raises [KeyError]; an exception of the parent's
    [to_dict] is raised as it is. *)
Theorem keras_to_dict_missing_servable (super_to_dict : bool → result json)
    (summary : string) (simplify_paths : bool) (output : gmap string json) :
  super_to_dict simplify_paths = Ok (JDict output) →
  output !! "servable" = None →
  Keras.to_dict super_to_dict summary simplify_paths = Raise (KeyError "servable") ∧
  ∀ e, Keras.to_dict (λ _, Raise e) summary simplify_paths = Raise e.
Proof.
  intros Hsuper Hnone. split; [|done].
  unfold Keras.to_dict, Keras.set_servable. rewrite Hsuper. simpl. by rewrite Hnone.
Qed.

Lemma keras_to_dict_missing_servable_witness :
  Keras.to_dict (λ _, Ok (JDict ∅)) "Layer (type)" false = Raise (KeyError "servable") ∧
  ∀ e, Keras.to_dict (λ _, Raise e) "Layer (type)" false = Raise e.
Proof.
  apply (keras_to_dict_missing_servable (λ _, Ok (JDict ∅)) "Layer (type)" false ∅);
    reflexivity.
Defined.
